(** * Statistics aggregation engine of the Soccer-database project

    A shallow embedding of the MongoDB aggregation pipelines of
    [code/queries.py] ([SoccerQueries]) over the documents written by
    [code/data_loader.py] ([SoccerDataLoader]).

    Conventions of the embedding:
    - a collection is a list of documents, in the order the store scans it;
    - a field that the loader may set to [None] is an [option]: a BSON null;
    - aggregation comparisons ([$gt], [$lt], [$eq]) use the BSON order across
      types, in which null sorts below every number;
    - [$sum] ignores non-numeric values (nulls);
    - [$group] emits its groups in the order of their first document, and
      [distinct] returns its values in ascending order;
    - the server's double arithmetic behind [$round] is left abstract where
      a result depends on it;
    - [$sort] and Python's [list.sort] are modelled as stable sorts. *)

From Stdlib Require Import ZArith List String Bool Ascii Lia QArith Qround Sorted.
From Stdlib Require Import Permutation Lqa.
Import ListNotations.
Open Scope string_scope.
Open Scope Z_scope.

(** ** BSON values *)

(** Comparison of two BSON values that are an int or null, in the BSON
    order across types (null below numbers), as used by the aggregation
    expressions [$gt], [$lt] and [$eq]. *)
Definition bson_cmp (a b : option Z) : comparison :=
  match a, b with
  | None, None => Eq
  | None, Some _ => Lt
  | Some _, None => Gt
  | Some x, Some y => Z.compare x y
  end.

Definition bson_gt (a b : option Z) : bool :=
  match bson_cmp a b with Gt => true | _ => false end.

Definition bson_lt (a b : option Z) : bool :=
  match bson_cmp a b with Lt => true | _ => false end.

Definition bson_eq (a b : option Z) : bool :=
  match bson_cmp a b with Eq => true | _ => false end.

(** What [$sum] adds for one value: a number, or nothing for a null. *)
Definition sum_value (v : option Z) : Z :=
  match v with Some z => z | None => 0 end.

(** ** Documents of the [matches] collection *)

(** [result] as computed by [SoccerDataLoader._determine_result]. *)
Inductive match_result := home_win | away_win | draw | unknown.

Definition determine_result (home_goals away_goals : option Z) : match_result :=
  match home_goals, away_goals with
  | Some h, Some a =>
      if h >? a then home_win
      else if h <? a then away_win
      else draw
  | _, _ => unknown
  end.

Module Match.
(** The fields of a match document that the queries read. *)
Record t := mk {
  league_name : string;
  season : string;
  home_team_name : string;
  away_team_name : string;
  home_team_goal : option Z;
  away_team_goal : option Z;
  result : match_result
}.
End Match.

(** A match document as [load_matches] builds it: [result] is derived. *)
Definition load_match (league season home away : string) (hg ag : option Z) : Match.t :=
  Match.mk league season home away hg ag (determine_result hg ag).

(** ** Query 2: one team's record for one season *)

Module TeamSeasonRecord.
Record t := mk {
  team : string;
  season : string;
  matches_played : Z;
  wins : Z;
  draws : Z;
  losses : Z;
  goals_scored : Z;
  goals_conceded : Z;
  goal_difference : Z;
  points : Z;
  position : option Z   (** the key added by [query_8_league_standings] *)
}.
End TeamSeasonRecord.

Section Query2.
Variables (team_name season : string).

(** The [$match] stage. *)
Definition q2_match (m : Match.t) : bool :=
  String.eqb (Match.season m) season
  && (String.eqb (Match.home_team_name m) team_name
      || String.eqb (Match.away_team_name m) team_name).

(** The three [$cond] tests of the [$group] stage. *)
Definition q2_win (m : Match.t) : bool :=
  (String.eqb (Match.home_team_name m) team_name
   && bson_gt (Match.home_team_goal m) (Match.away_team_goal m))
  || (String.eqb (Match.away_team_name m) team_name
      && bson_gt (Match.away_team_goal m) (Match.home_team_goal m)).

Definition q2_loss (m : Match.t) : bool :=
  (String.eqb (Match.home_team_name m) team_name
   && bson_lt (Match.home_team_goal m) (Match.away_team_goal m))
  || (String.eqb (Match.away_team_name m) team_name
      && bson_lt (Match.away_team_goal m) (Match.home_team_goal m)).

Definition q2_draw (m : Match.t) : bool :=
  bson_eq (Match.home_team_goal m) (Match.away_team_goal m).

Definition q2_scored (m : Match.t) : option Z :=
  if String.eqb (Match.home_team_name m) team_name
  then Match.home_team_goal m else Match.away_team_goal m.

Definition q2_conceded (m : Match.t) : option Z :=
  if String.eqb (Match.home_team_name m) team_name
  then Match.away_team_goal m else Match.home_team_goal m.

(** [{'$sum': {'$cond': [c, 1, 0]}}] *)
Definition sum_cond (c : Match.t -> bool) (ms : list Match.t) : Z :=
  fold_right (fun m acc => (if c m then 1 else 0) + acc) 0 ms.

(** [{'$sum': e}] for an expression [e] that is an int or null *)
Definition sum_field (e : Match.t -> option Z) (ms : list Match.t) : Z :=
  fold_right (fun m acc => sum_value (e m) + acc) 0 ms.

(** The [$group] stage (with [_id: None]) followed by [$project]. *)
Definition q2_record (ms : list Match.t) : TeamSeasonRecord.t :=
  let total_matches := sum_cond (fun _ => true) ms in
  let w := sum_cond q2_win ms in
  let l := sum_cond q2_loss ms in
  let d := sum_cond q2_draw ms in
  let gs := sum_field q2_scored ms in
  let gc := sum_field q2_conceded ms in
  TeamSeasonRecord.mk team_name season total_matches w d l gs gc
    (gs - gc) (w * 3 + d) None.

(** [query_2_team_season_record]: [results[0] if results else None]; the
    group stage emits no document when no match passed [$match]. *)
Definition query_2_team_season_record (matches : list Match.t)
  : option TeamSeasonRecord.t :=
  match filter q2_match matches with
  | [] => None
  | ms => Some (q2_record ms)
  end.
End Query2.

(** ** Query 9: head to head *)

Module HeadToHeadRecord.
Record t := mk {
  team1 : string;
  team2 : string;
  total_matches : Z;
  team1_wins : Z;
  team2_wins : Z;
  draws : Z
}.
End HeadToHeadRecord.

Section Query9.
Variables (team1 team2 : string).

Definition q9_match (m : Match.t) : bool :=
  (String.eqb (Match.home_team_name m) team1
   && String.eqb (Match.away_team_name m) team2)
  || (String.eqb (Match.home_team_name m) team2
      && String.eqb (Match.away_team_name m) team1).

(** The win test of the group stage for the side named [t]. *)
Definition q9_win (t : string) (m : Match.t) : bool :=
  (String.eqb (Match.home_team_name m) t
   && bson_gt (Match.home_team_goal m) (Match.away_team_goal m))
  || (String.eqb (Match.away_team_name m) t
      && bson_gt (Match.away_team_goal m) (Match.home_team_goal m)).

Definition q9_record (ms : list Match.t) : HeadToHeadRecord.t :=
  HeadToHeadRecord.mk team1 team2
    (sum_cond (fun _ => true) ms)
    (sum_cond (q9_win team1) ms)
    (sum_cond (q9_win team2) ms)
    (sum_cond (fun m => bson_eq (Match.home_team_goal m) (Match.away_team_goal m)) ms).

Definition query_9_head_to_head (matches : list Match.t)
  : option HeadToHeadRecord.t :=
  match filter q9_match matches with
  | [] => None
  | ms => Some (q9_record ms)
  end.
End Query9.

(** ** Helpers shared by the pipelines *)

Section StableSort.
Context {A : Type}.
(** [before x y]: [x] may be placed before [y] (a total preorder). *)
Variable before : A -> A -> bool.

Fixpoint insert_by (x : A) (l : list A) : list A :=
  match l with
  | [] => [x]
  | y :: l' => if before x y then x :: l else y :: insert_by x l'
  end.

(** Inserting each element, from the last one back, in front of the first
    element it may precede: a stable sort (equal keys keep their order). *)
Definition sort_by (l : list A) : list A := fold_right insert_by [] l.
End StableSort.

Section GroupBy.
Context {A K : Type}.
Variables (key : A -> K) (key_eqb : K -> K -> bool).

(** A group: its key, its first document and the documents after it. *)
Fixpoint add_to_groups (x : A) (gs : list (K * A * list A)) : list (K * A * list A) :=
  match gs with
  | [] => [(key x, x, [])]
  | (k, x0, xs) :: gs' =>
      if key_eqb k (key x) then (k, x0, app xs [x]) :: gs'
      else (k, x0, xs) :: add_to_groups x gs'
  end.

(** [$group]: one group per key, in the order of the first document. *)
Definition group_by (l : list A) : list (K * A * list A) :=
  fold_left (fun gs x => add_to_groups x gs) l [].
End GroupBy.

(** ** Query 8: league standings *)

(** Python's order on [str] (code point order; byte order here), which is
    also the server's order on strings under the default collation. *)
Definition str_le (a b : string) : bool :=
  match String.compare a b with Gt => false | _ => true end.

(** Each value once, at its first occurrence. *)
Fixpoint distinct_from (seen : list string) (vs : list string) : list string :=
  match vs with
  | [] => []
  | v :: vs' =>
      if existsb (String.eqb v) seen then distinct_from seen vs'
      else v :: distinct_from (v :: seen) vs'
  end.

(** [db.matches.distinct('home_team_name', filter)]: the values of the
    documents that pass the filter, each once, in the server's ascending
    order. *)
Definition distinct_home_team_name (league_name season : string)
  (matches : list Match.t) : list string :=
  sort_by str_le
    (distinct_from []
       (map Match.home_team_name
          (filter (fun m => String.eqb (Match.league_name m) league_name
                            && String.eqb (Match.season m) season) matches))).

(** The sort key [(x['points'], x['goal_difference'])]: [standings_key_ge a b]
    holds when the key of [a] is at least the key of [b] (tuple order). *)
Definition standings_key_ge (a b : TeamSeasonRecord.t) : bool :=
  (TeamSeasonRecord.points b <? TeamSeasonRecord.points a)
  || ((TeamSeasonRecord.points a =? TeamSeasonRecord.points b)
      && (TeamSeasonRecord.goal_difference b <=? TeamSeasonRecord.goal_difference a)).

(** [list.sort(key=..., reverse=True)] is stable: records with equal keys
    keep their order. *)
Definition sort_desc (l : list TeamSeasonRecord.t) : list TeamSeasonRecord.t :=
  sort_by standings_key_ge l.

Definition set_position (r : TeamSeasonRecord.t) (i : Z) : TeamSeasonRecord.t :=
  TeamSeasonRecord.mk (TeamSeasonRecord.team r) (TeamSeasonRecord.season r)
    (TeamSeasonRecord.matches_played r) (TeamSeasonRecord.wins r)
    (TeamSeasonRecord.draws r) (TeamSeasonRecord.losses r)
    (TeamSeasonRecord.goals_scored r) (TeamSeasonRecord.goals_conceded r)
    (TeamSeasonRecord.goal_difference r) (TeamSeasonRecord.points r) (Some i).

(** [for i, team_record in enumerate(standings, 1): team_record['position'] = i] *)
Fixpoint enumerate_positions (i : Z) (l : list TeamSeasonRecord.t)
  : list TeamSeasonRecord.t :=
  match l with
  | [] => []
  | r :: l' => set_position r i :: enumerate_positions (i + 1) l'
  end.

(** [for team in teams: record = self.query_2_team_season_record(team, season);
    if record: standings.append(record)] *)
Fixpoint collect_records (season : string) (matches : list Match.t)
  (teams : list string) : list TeamSeasonRecord.t :=
  match teams with
  | [] => []
  | t :: ts =>
      match query_2_team_season_record t season matches with
      | Some r => r :: collect_records season matches ts
      | None => collect_records season matches ts
      end
  end.

Definition query_8_league_standings (matches : list Match.t)
  (league_name season : string) : list TeamSeasonRecord.t :=
  let teams := distinct_home_team_name league_name season matches in
  let standings := collect_records season matches teams in
  enumerate_positions 1 (sort_desc standings).

(** ** Players and attribute snapshots *)

Module Player.
(** A [players] document as [load_players] builds it (fields read). *)
Record t := mk {
  player_api_id : Z;
  player_name : string;
  height : option Q;
  weight : option Z
}.
End Player.

Module PlayerAttributes.
(** A [player_attributes] document as [load_player_attributes] builds it;
    [date] is the loader's [clean_date] value (a timestamp or null). *)
Record t := mk {
  player_api_id : Z;
  date : option Z;
  overall_rating : option Z;
  potential : option Z;
  preferred_foot : option string;
  finishing : option Z;
  short_passing : option Z;
  dribbling : option Z;
  sprint_speed : option Z;
  stamina : option Z;
  strength : option Z
}.
End PlayerAttributes.

(** The collections of [soccer_db] that the queries read. *)
Record Store := mkStore {
  matches : list Match.t;
  players : list Player.t;
  player_attributes : list PlayerAttributes.t
}.

(** Errors surfaced to the caller of a query: [InvalidArgument] for an input
    a query method rejects in its own code, [OperationFailure] for a pipeline
    the server rejects ([pymongo.errors.OperationFailure]), [OverflowError]
    for a Python int the driver cannot encode as BSON. *)
Inductive query_error :=
| InvalidArgument (msg : string)
| OperationFailure (code : Z) (errmsg : string)
| OverflowError (msg : string).

(** The range of a BSON int64, the widest integer the driver encodes. *)
Definition int64_min : Z := - 2 ^ 63.
Definition int64_max : Z := 2 ^ 63 - 1.

(** The [$limit] stage with a Python int [limit]. The driver encodes the
    pipeline first and raises [OverflowError] for an int outside int64. The
    server then parses the limit as a non-negative integer (error 5107201,
    "invalid argument to $limit stage", followed by the value, on current
    servers), requires it positive (error 15958), and keeps that many
    documents. *)
Definition limit_stage {A : Type} (limit : Z) (docs : list A) : query_error + list A :=
  if (limit <? int64_min) || (int64_max <? limit)
  then inl (OverflowError "MongoDB can only handle up to 8-byte ints")
  else if limit <? 0
  then inl (OperationFailure 5107201 "invalid argument to $limit stage")
  else if limit =? 0
  then inl (OperationFailure 15958 "the limit must be positive")
  else inr (firstn (Z.to_nat limit) docs).

(** [$lookup] from [player_attributes] on [player_api_id], then [$unwind]:
    one (player, snapshot) pair per snapshot; a player without snapshots
    yields none. *)
Definition lookup_attributes (st : Store) (p : Player.t) : list PlayerAttributes.t :=
  filter (fun a => PlayerAttributes.player_api_id a =? Player.player_api_id p)
    (player_attributes st).

Definition lookup_unwind (st : Store) (ps : list Player.t)
  : list (Player.t * PlayerAttributes.t) :=
  flat_map (fun p => map (fun a => (p, a)) (lookup_attributes st p)) ps.

(** ** Query 3: top players by rating *)

(** [$avg] over ints or nulls: the nulls are ignored, null when none is left. *)
Definition bson_avg (vs : list (option Z)) : option Q :=
  let nums := flat_map (fun v => match v with Some z => [z] | None => [] end) vs in
  match nums with
  | [] => None
  | _ => Some (Qdiv (inject_Z (fold_right Z.add 0 nums)) (inject_Z (Z.of_nat (List.length nums))))
  end.

(** [$max] over ints or nulls: the nulls are ignored. *)
Definition bson_max (vs : list (option Z)) : option Z :=
  fold_right (fun v acc =>
                match v, acc with
                | Some x, Some y => Some (Z.max x y)
                | Some x, None => Some x
                | None, _ => acc
                end) None vs.

(** [$round: [x, 1]]: to one decimal place, a half to the even neighbour. *)
Definition round_1 (x : Q) : Q :=
  let y := Qmult x (inject_Z 10) in
  let f := Qfloor y in
  let d := Qminus y (inject_Z f) in
  let r := if Qle_bool (1 # 2) d && negb (Qeq_bool d (1 # 2)) then f + 1
           else if Qeq_bool d (1 # 2) then (if Z.even f then f else f + 1)
           else f in
  Qdiv (inject_Z r) (inject_Z 10).

(** A document of the [$group] stage of query 3. *)
Module TopPlayerGroup.
Record t := mk {
  _id : Z;
  player_name : string;
  avg_rating : option Q;
  max_rating : option Z;
  height : option Q;
  weight : option Z;
  preferred_foot : option string
}.
End TopPlayerGroup.

Module TopPlayerEntry.
Record t := mk {
  player_name : string;
  avg_rating : option Q;
  max_rating : option Z;
  height : option Q;
  weight : option Z;
  preferred_foot : option string
}.
End TopPlayerEntry.

Definition q3_group (g : Z * (Player.t * PlayerAttributes.t)
                          * list (Player.t * PlayerAttributes.t)) : TopPlayerGroup.t :=
  let '(k, (p0, a0), rest) := g in
  let rows := (p0, a0) :: rest in
  let ratings := map (fun pa => PlayerAttributes.overall_rating (snd pa)) rows in
  TopPlayerGroup.mk k (Player.player_name p0) (bson_avg ratings) (bson_max ratings)
    (Player.height p0) (Player.weight p0) (PlayerAttributes.preferred_foot a0).

(** [{'$sort': {'avg_rating': -1}}], null below every number. *)
Definition avg_rating_before (a b : TopPlayerGroup.t) : bool :=
  match TopPlayerGroup.avg_rating a, TopPlayerGroup.avg_rating b with
  | _, None => true
  | None, Some _ => false
  | Some x, Some y => Qle_bool y x
  end.

Definition q3_project (g : TopPlayerGroup.t) : TopPlayerEntry.t :=
  TopPlayerEntry.mk (TopPlayerGroup.player_name g)
    (option_map round_1 (TopPlayerGroup.avg_rating g))
    (TopPlayerGroup.max_rating g) (TopPlayerGroup.height g)
    (TopPlayerGroup.weight g) (TopPlayerGroup.preferred_foot g).

(** [query_3_top_players_by_rating]: the pipeline runs over [players];
    [match_filter] is built from [league_name] (Python truthiness: a
    non-empty string) and then not used by any stage. *)
Definition query_3_top_players_by_rating (st : Store) (league_name : option string)
  (limit : Z) : query_error + list TopPlayerEntry.t :=
  let match_filter :=
    match league_name with
    | Some l => if String.eqb l "" then [] else [("league_name", l)]
    | None => []
    end in
  let unwound := lookup_unwind st (players st) in
  let groups := map q3_group
                  (group_by (fun pa => Player.player_api_id (fst pa)) Z.eqb unwound) in
  let sorted := sort_by avg_rating_before groups in
  match limit_stage limit sorted with
  | inl e => inl e
  | inr top => inr (map q3_project top)
  end.

(** ** Query 5: a player's attributes over time *)

Module PlayerRatingPoint.
Record t := mk {
  player_name : string;
  date : option Z;
  overall_rating : option Z;
  potential : option Z;
  finishing : option Z;
  short_passing : option Z;
  dribbling : option Z;
  sprint_speed : option Z;
  stamina : option Z;
  strength : option Z
}.
End PlayerRatingPoint.

Definition q5_project (pa : Player.t * PlayerAttributes.t) : PlayerRatingPoint.t :=
  let '(p, a) := pa in
  PlayerRatingPoint.mk (Player.player_name p) (PlayerAttributes.date a)
    (PlayerAttributes.overall_rating a) (PlayerAttributes.potential a)
    (PlayerAttributes.finishing a) (PlayerAttributes.short_passing a)
    (PlayerAttributes.dribbling a) (PlayerAttributes.sprint_speed a)
    (PlayerAttributes.stamina a) (PlayerAttributes.strength a).

(** [{'$sort': {'date': 1}}], null before every date. *)
Definition date_before (a b : PlayerRatingPoint.t) : bool :=
  negb (bson_gt (PlayerRatingPoint.date a) (PlayerRatingPoint.date b)).

(** [query_5_player_attributes_over_time]: [$match] on [player_name] over
    [players], [$lookup], [$unwind], [$project], [$sort]. *)
Definition query_5_player_attributes_over_time (st : Store) (player_name : string)
  : list PlayerRatingPoint.t :=
  let ps := filter (fun p => String.eqb (Player.player_name p) player_name) (players st) in
  sort_by date_before (map q5_project (lookup_unwind st ps)).

(** ** Query 6: common scorelines *)

(** Decimal digits of a non-negative int, in front of [acc]. *)
Fixpoint z_digits (fuel : nat) (z : Z) (acc : string) : string :=
  match fuel with
  | O => acc
  | S f =>
      let acc' := String (ascii_of_nat (48 + Z.to_nat (z mod 10))) acc in
      if z <? 10 then acc' else z_digits f (z / 10) acc'
  end.

(** [$toString] of an int or null. *)
Definition bson_to_string (v : option Z) : option string :=
  match v with
  | None => None
  | Some z =>
      if z <? 0 then Some (String "-" (z_digits (S (Z.to_nat (Z.log2 (- z)))) (- z) ""))
      else Some (z_digits (S (Z.to_nat (Z.log2 z))) z "")
  end.

(** [$concat] of strings or nulls: null as soon as one operand is null. *)
Fixpoint bson_concat (vs : list (option string)) : option string :=
  match vs with
  | [] => Some ""
  | None :: _ => None
  | Some s :: vs' =>
      match bson_concat vs' with
      | Some r => Some (s ++ r)
      | None => None
      end
  end.

Module ScorelineTally.
Record t := mk {
  scoreline : option string;
  home_goals : option Z;
  away_goals : option Z;
  occurrences : Z
}.
End ScorelineTally.

(** [$group] on [{home_goals, away_goals}] counting, then [$project]. *)
Definition q6_group (g : (option Z * option Z) * Match.t * list Match.t) : ScorelineTally.t :=
  let '((h, a), _, rest) := g in
  ScorelineTally.mk (bson_concat [bson_to_string h; Some " - "; bson_to_string a])
    h a (Z.of_nat (S (List.length rest))).

Definition goal_pair_eqb (x y : option Z * option Z) : bool :=
  bson_eq (fst x) (fst y) && bson_eq (snd x) (snd y).

(** [{'$sort': {'occurrences': -1}}] *)
Definition occurrences_before (a b : ScorelineTally.t) : bool :=
  ScorelineTally.occurrences b <=? ScorelineTally.occurrences a.

Definition query_6_common_scorelines (st : Store) (limit : Z)
  : query_error + list ScorelineTally.t :=
  let groups := map q6_group
                  (group_by (fun m => (Match.home_team_goal m, Match.away_team_goal m))
                     goal_pair_eqb (matches st)) in
  limit_stage limit (sort_by occurrences_before groups).

(** ** Query 1: high-scoring matches *)

Module MatchDoc.
(** A [matches] document with its [date] (the loader's [clean_date] value, a
    timestamp or null), which query 1 projects and sorts on. *)
Record t := mk {
  date : option Z;
  fields : Match.t
}.
End MatchDoc.

Module MatchProjection.
Record t := mk {
  date : option Z;
  league_name : string;
  season : string;
  home_team_name : string;
  away_team_name : string;
  home_team_goal : option Z;
  away_team_goal : option Z;
  scoreline : option string
}.
End MatchProjection.

(** [{'field': {'$gte': min_goals}}] in a [$match] filter: a null field does
    not compare with a number and never matches. *)
Definition query_gte (v : option Z) (min_goals : Z) : bool :=
  match v with Some z => min_goals <=? z | None => false end.

Section Query1.
Variables (team_name : string) (min_goals : Z).

(** The [$match] stage: the team at home with at least [min_goals], or away
    with at least [min_goals]. *)
Definition q1_match (d : MatchDoc.t) : bool :=
  let m := MatchDoc.fields d in
  (String.eqb (Match.home_team_name m) team_name
   && query_gte (Match.home_team_goal m) min_goals)
  || (String.eqb (Match.away_team_name m) team_name
      && query_gte (Match.away_team_goal m) min_goals).

Definition q1_project (d : MatchDoc.t) : MatchProjection.t :=
  let m := MatchDoc.fields d in
  MatchProjection.mk (MatchDoc.date d) (Match.league_name m) (Match.season m)
    (Match.home_team_name m) (Match.away_team_name m)
    (Match.home_team_goal m) (Match.away_team_goal m)
    (bson_concat [bson_to_string (Match.home_team_goal m); Some " - ";
                  bson_to_string (Match.away_team_goal m)]).

(** [{'$sort': {'date': -1}}], null after every date. *)
Definition date_desc_before (a b : MatchProjection.t) : bool :=
  negb (bson_lt (MatchProjection.date a) (MatchProjection.date b)).

Definition query_1_high_scoring_matches (docs : list MatchDoc.t)
  : list MatchProjection.t :=
  sort_by date_desc_before (map q1_project (filter q1_match docs)).
End Query1.

(** ** Query 4: average goals per league *)

(** [{'$add': [a, b]}] of ints or nulls: null as soon as one operand is null. *)
Definition bson_add (a b : option Z) : option Z :=
  match a, b with Some x, Some y => Some (x + y) | _, _ => None end.

(** [$round: [x, place]] of the exact value [x]: to [place] decimals, a half
    to the even neighbour. The server rounds a double, not [x]: for [x]
    that is no double, its result can differ from this one and lie further
    than half a unit of the last place from [x] (1 goal in 8 matches gives
    the double nearest 0.12). The league averages therefore leave the
    server's rounding abstract; this function is one instance of it, used
    on the sample facts. *)
Definition round_half_even (place : Z) (x : Q) : Q :=
  let scale := inject_Z (10 ^ place) in
  let y := Qmult x scale in
  let f := Qfloor y in
  let d := Qminus y (inject_Z f) in
  let r := if Qle_bool (1 # 2) d && negb (Qeq_bool d (1 # 2)) then f + 1
           else if Qeq_bool d (1 # 2) then (if Z.even f then f else f + 1)
           else f in
  Qdiv (inject_Z r) scale.

Module LeagueStats.
Record t := mk {
  league_name : string;
  total_matches : Z;
  total_goals : Z;
  avg_goals_per_match : Q;
  avg_home_goals : option Q;
  avg_away_goals : option Q
}.
End LeagueStats.

Section Query4.

(** [round_2 x]: the value of [{'$round': [e, 2]}] where [e] is a double
    quotient ([$divide] of the goal sum by the match count, or [$avg] of
    int goals) whose exact value is [x]; the server's double arithmetic. *)
Variable round_2 : Q -> Q.

(** The [$group] stage on [league_name] followed by [$project]. *)
Definition q4_group (g : string * Match.t * list Match.t) : LeagueStats.t :=
  let '(k, m0, rest) := g in
  let ms := m0 :: rest in
  let total_matches := Z.of_nat (List.length ms) in
  let total_goals :=
    fold_right (fun m acc =>
                  sum_value (bson_add (Match.home_team_goal m) (Match.away_team_goal m))
                  + acc) 0 ms in
  LeagueStats.mk k total_matches total_goals
    (round_2 (Qdiv (inject_Z total_goals) (inject_Z total_matches)))
    (option_map round_2 (bson_avg (map Match.home_team_goal ms)))
    (option_map round_2 (bson_avg (map Match.away_team_goal ms))).

(** [{'$sort': {'avg_goals_per_match': -1}}] *)
Definition avg_goals_before (a b : LeagueStats.t) : bool :=
  Qle_bool (LeagueStats.avg_goals_per_match b) (LeagueStats.avg_goals_per_match a).

Definition query_4_avg_goals_per_league (st : Store) : list LeagueStats.t :=
  sort_by avg_goals_before
    (map q4_group (group_by Match.league_name String.eqb (matches st))).

End Query4.

(** ** The team endpoint of the web app *)

(** [get_team_info]'s [all_matches]: the team at home or away, any season. *)
Definition team_matches (team_name : string) (ms : list Match.t) : list Match.t :=
  filter (fun m => String.eqb (Match.home_team_name m) team_name
                   || String.eqb (Match.away_team_name m) team_name) ms.

(** [get_team_info]'s [total_goals = sum(...)]: Python's [sum] starts from 0
    and raises [TypeError] on adding [None]; [None] here is that error. *)
Definition team_total_goals (team_name : string) (ms : list Match.t) : option Z :=
  fold_left (fun acc m =>
               match acc, q2_scored team_name m with
               | Some s, Some g => Some (s + g)
               | _, _ => None
               end) (team_matches team_name ms) (Some 0).

(** ** Query 7: a team's rating trend *)

(** [sorted(set(xs))]: each value once, in ascending order. *)
Definition sorted_set (xs : list string) : list string :=
  sort_by str_le (distinct_from [] xs).

(** [.sort('date', 1)]: ascending, null before every date. *)
Definition doc_date_before (a b : MatchDoc.t) : bool :=
  negb (bson_gt (MatchDoc.date a) (MatchDoc.date b)).

(** [{'$gte': bound}] or [{'$lte': bound}] in a query filter on a field that
    holds a date or null: a null bound matches only null, a date bound only
    dates. *)
Definition query_bound (ok : Z -> Z -> bool) (v bound : option Z) : bool :=
  match v, bound with
  | Some d, Some b => ok d b
  | None, None => true
  | _, _ => false
  end.

(** [{'date': {'$gte': start_date, '$lte': end_date}}] *)
Definition in_date_range (start_date end_date v : option Z) : bool :=
  query_bound (fun d b => b <=? d) v start_date
  && query_bound (fun d b => d <=? b) v end_date.

Module TrendPoint.
Record t := mk {
  season : string;
  avg_overall_rating : Q;
  avg_potential : Q
}.
End TrendPoint.

Section Query7.
(** Python's [round(x, 1)] of the float average. *)
Variable py_round_1 : Q -> Q.

(** One pass of the season loop: [None] when [round] raises [TypeError] on
    a null average, [Some None] when the season adds no point, and
    [Some (Some p)] when it adds [p]. *)
Definition q7_season_point (docs : list MatchDoc.t) (attrs : list PlayerAttributes.t)
  (season : string) : option (option TrendPoint.t) :=
  let season_list :=
    sort_by doc_date_before
      (filter (fun d => String.eqb (Match.season (MatchDoc.fields d)) season) docs) in
  match season_list with
  | [] => Some None
  | first :: _ =>
      let start_date := MatchDoc.date first in
      let end_date := MatchDoc.date (last season_list first) in
      let season_ratings :=
        filter (fun a => in_date_range start_date end_date (PlayerAttributes.date a)) attrs in
      match season_ratings with
      | [] => Some None
      | _ :: _ =>
          match bson_avg (map PlayerAttributes.overall_rating season_ratings) with
          | None => None
          | Some r =>
              match bson_avg (map PlayerAttributes.potential season_ratings) with
              | None => None
              | Some p => Some (Some (TrendPoint.mk season (py_round_1 r) (py_round_1 p)))
              end
          end
      end
  end.

(** [for season in seasons: ...]: an exception ends the whole call. *)
Fixpoint q7_collect (docs : list MatchDoc.t) (attrs : list PlayerAttributes.t)
  (seasons : list string) : option (list TrendPoint.t) :=
  match seasons with
  | [] => Some []
  | s :: ss =>
      match q7_season_point docs attrs s with
      | None => None
      | Some None => q7_collect docs attrs ss
      | Some (Some p) =>
          match q7_collect docs attrs ss with
          | Some ps => Some (p :: ps)
          | None => None
          end
      end
  end.

(** [query_7_team_rating_trend] over the [matches] documents (with their
    dates) and the [player_attributes] documents; [None] is the
    [TypeError]. *)
Definition query_7_team_rating_trend (team_name : string) (docs : list MatchDoc.t)
  (attrs : list PlayerAttributes.t) : option (list TrendPoint.t) :=
  let team_docs :=
    filter (fun d => String.eqb (Match.home_team_name (MatchDoc.fields d)) team_name
                     || String.eqb (Match.away_team_name (MatchDoc.fields d)) team_name) docs in
  let seasons := sorted_set (map (fun d => Match.season (MatchDoc.fields d)) team_docs) in
  q7_collect docs attrs seasons.
End Query7.

(** ** Vocabulary of the properties *)




(** A match that qualifies for [query_2_team_season_record team_name season]
    and has [team_name] on both sides. *)
Definition self_match (team_name season : string) (m : Match.t) : bool :=
  q2_match team_name season m
  && String.eqb (Match.home_team_name m) team_name
  && String.eqb (Match.away_team_name m) team_name.

Definition no_self_match (team_name season : string) (ms : list Match.t) : bool :=
  forallb (fun m => negb (self_match team_name season m)) ms.

(** A head-to-head record read with its two sides exchanged. *)
Definition swap_sides (h : HeadToHeadRecord.t) : HeadToHeadRecord.t :=
  HeadToHeadRecord.mk (HeadToHeadRecord.team2 h) (HeadToHeadRecord.team1 h)
    (HeadToHeadRecord.total_matches h) (HeadToHeadRecord.team2_wins h)
    (HeadToHeadRecord.team1_wins h) (HeadToHeadRecord.draws h).

(** Some identity record of [players] has the name [name] and a snapshot. *)
Definition resolves_with_snapshot (st : Store) (name : string) : Prop :=
  exists p a, In p (players st) /\ Player.player_name p = name
              /\ In a (player_attributes st)
              /\ PlayerAttributes.player_api_id a = Player.player_api_id p.

(** ** Sample fact sets *)

(** A season of league [L] in which [B] only ever plays away. *)
Definition away_only_matches : list Match.t :=
  [load_match "L" "S" "A" "B" (Some 1) (Some 0)].


(** A player with snapshots whose league [L] has no match at all. *)
Definition no_league_match_store : Store :=
  mkStore [load_match "M" "S" "A" "B" (Some 2) (Some 1)]
    [Player.mk 1 "P" None None]
    [PlayerAttributes.mk 1 (Some 1) (Some 80) (Some 85) (Some "right")
       None None None None None None].

Definition scoreline_store : Store :=
  mkStore [load_match "L" "S" "A" "B" (Some 2) (Some 1);
           load_match "L" "S" "C" "D" (Some 2) (Some 1);
           load_match "L" "S" "A" "D" (Some 1) (Some 1)] [] [].

Definition scoreline_expected : list ScorelineTally.t :=
  [ScorelineTally.mk (Some "2 - 1") (Some 2) (Some 1) 2;
   ScorelineTally.mk (Some "1 - 1") (Some 1) (Some 1) 1].

(** A match with the queried team on both sides, won by the home side. *)
Definition self_matches : list Match.t :=
  [load_match "L" "S" "A" "A" (Some 1) (Some 0)].

(** No identity record at all, and one identity record without snapshots. *)
Definition nameless_store : Store := mkStore [] [] [].

Definition snapshotless_store : Store := mkStore [] [Player.mk 7 "X" None None] [].

(** The season of the spec's scenario, and a match with one goal count
    missing (its [result] is [unknown]). *)
Definition scenario_matches : list Match.t :=
  [load_match "L" "2020" "A" "B" (Some 2) (Some 1);
   load_match "L" "2020" "B" "A" (Some 0) (Some 0)].

Definition half_known_matches : list Match.t :=
  [load_match "L" "2020" "A" "B" (Some 2) None].

(** Two null goal counts. *)
Definition null_null_matches : list Match.t :=
  [load_match "L" "2020" "A" "B" None None;
   load_match "L" "2020" "A" "C" (Some 3) (Some 0)].

(** Matches of two leagues, one of them with a missing away goal count. *)
Definition league_store : Store :=
  mkStore [load_match "L" "S" "A" "B" (Some 2) (Some 1);
           load_match "M" "S" "C" "D" (Some 0) (Some 0);
           load_match "L" "S" "B" "A" (Some 1) None] [] [].

Definition default_league_stats : LeagueStats.t := LeagueStats.mk "" 0 0 0 None None.

(** Dated matches of team [A], one of them without a date. *)
Definition dated_docs : list MatchDoc.t :=
  [MatchDoc.mk (Some 10) (load_match "L" "S" "A" "B" (Some 3) (Some 1));
   MatchDoc.mk None (load_match "L" "S" "B" "A" (Some 0) (Some 4));
   MatchDoc.mk (Some 20) (load_match "L" "S" "A" "C" (Some 1) (Some 1))].

(** Two players: [P] with a rated and an unrated snapshot, [Q] with an
    unrated one only. *)
Definition rated_store : Store :=
  mkStore []
    [Player.mk 1 "P" None None; Player.mk 2 "Q" None None]
    [PlayerAttributes.mk 1 (Some 2) (Some 80) None None None None None None None None;
     PlayerAttributes.mk 1 (Some 1) None None None None None None None None None;
     PlayerAttributes.mk 2 None None None None None None None None None None].

(** Snapshots dated inside and outside the season of [dated_docs]. *)
Definition trend_snapshots : list PlayerAttributes.t :=
  [PlayerAttributes.mk 1 (Some 12) (Some 70) (Some 75) None None None None None None None;
   PlayerAttributes.mk 2 (Some 15) (Some 81) (Some 84) None None None None None None None;
   PlayerAttributes.mk 3 (Some 30) (Some 60) (Some 65) None None None None None None None].

(** The same with one unrated snapshot inside the season. *)
Definition unrated_trend_snapshots : list PlayerAttributes.t :=
  [PlayerAttributes.mk 1 (Some 12) None None None None None None None None None].

(** Team [A] in two seasons: [S] from date 10 to 20, [T] from 25 to 40. *)
Definition trend_docs : list MatchDoc.t :=
  [MatchDoc.mk (Some 10) (load_match "L" "S" "A" "B" (Some 3) (Some 1));
   MatchDoc.mk (Some 20) (load_match "L" "S" "A" "C" (Some 1) (Some 1));
   MatchDoc.mk (Some 40) (load_match "L" "T" "D" "A" (Some 1) (Some 1));
   MatchDoc.mk (Some 25) (load_match "L" "T" "D" "E" (Some 1) (Some 1))].

(** ** Generic lemmas *)

Section SortLemmas.
Context {A : Type}.
Variable before : A -> A -> bool.
Hypothesis before_total : forall x y, before x y = false -> before y x = true.

Lemma insert_by_hdrel (x y : A) (l : list A) :
  HdRel (fun a b => before a b = true) y l -> before y x = true ->
  HdRel (fun a b => before a b = true) y (insert_by before x l).
Proof.
  destruct l as [| z l]; simpl; intros Hh Hyx.
  - constructor; exact Hyx.
  - destruct (before x z); constructor; [exact Hyx |].
    inversion Hh; assumption.
Qed.

Lemma insert_by_sorted (x : A) (l : list A) :
  Sorted (fun a b => before a b = true) l ->
  Sorted (fun a b => before a b = true) (insert_by before x l).
Proof.
  induction l as [| y l IH]; simpl; intros Hs.
  - repeat constructor.
  - destruct (before x y) eqn:Hxy.
    + constructor; [exact Hs | constructor; exact Hxy].
    + inversion Hs as [| ? ? Hl Hh]; subst.
      constructor; [apply IH; exact Hl |].
      apply insert_by_hdrel; [exact Hh | apply before_total; exact Hxy].
Qed.

Lemma sort_by_sorted (l : list A) :
  Sorted (fun a b => before a b = true) (sort_by before l).
Proof.
  induction l as [| x l IH]; simpl; [constructor |].
  apply insert_by_sorted; exact IH.
Qed.
End SortLemmas.

Lemma insert_by_length {A : Type} (before : A -> A -> bool) (x : A) (l : list A) :
  List.length (insert_by before x l) = S (List.length l).
Proof.
  induction l as [| y l IH]; simpl; [reflexivity |].
  destruct (before x y); simpl; [reflexivity | rewrite IH; reflexivity].
Qed.

Lemma sort_by_length {A : Type} (before : A -> A -> bool) (l : list A) :
  List.length (sort_by before l) = List.length l.
Proof.
  induction l as [| x l IH]; simpl; [reflexivity |].
  rewrite insert_by_length, IH; reflexivity.
Qed.

(** ** Tallies *)

Definition b2z (b : bool) : Z := if b then 1 else 0.

Lemma sum_field_cons (e : Match.t -> option Z) (m : Match.t) (ms : list Match.t) :
  sum_field e (m :: ms) = sum_value (e m) + sum_field e ms.
Proof. reflexivity. Qed.

Lemma sum_cond_cons (c : Match.t -> bool) (m : Match.t) (ms : list Match.t) :
  sum_cond c (m :: ms) = b2z (c m) + sum_cond c ms.
Proof. reflexivity. Qed.

(** Three tests that split every match of [ms] split the count of [ms]. *)
Lemma sum_cond_partition (c1 c2 c3 : Match.t -> bool) (ms : list Match.t) :
  (forall m, In m ms -> b2z (c1 m) + b2z (c2 m) + b2z (c3 m) = 1) ->
  sum_cond c1 ms + sum_cond c2 ms + sum_cond c3 ms = sum_cond (fun _ => true) ms.
Proof.
  induction ms as [| m ms IH]; intros H; [reflexivity |].
  rewrite !sum_cond_cons.
  assert (Hm := H m (or_introl eq_refl)).
  assert (Hr := IH (fun m' Hin => H m' (or_intror Hin))).
  unfold b2z at 4; lia.
Qed.

(** Exactly one of [$gt], [$lt], [$eq] holds between two ints or nulls. *)
Lemma bson_trichotomy (a b : option Z) :
  b2z (bson_gt a b) + b2z (bson_lt a b) + b2z (bson_eq a b) = 1.
Proof.
  unfold bson_gt, bson_lt, bson_eq; destruct (bson_cmp a b); reflexivity.
Qed.

Lemma bson_gt_lt (a b : option Z) : bson_gt a b = bson_lt b a.
Proof.
  unfold bson_gt, bson_lt, bson_cmp.
  destruct a as [x |], b as [y |]; try reflexivity.
  rewrite (Z.compare_antisym x y); destruct (Z.compare x y); reflexivity.
Qed.

Lemma bson_eq_sym (a b : option Z) : bson_eq a b = bson_eq b a.
Proof.
  unfold bson_eq, bson_cmp.
  destruct a as [x |], b as [y |]; try reflexivity.
  rewrite (Z.compare_antisym x y); destruct (Z.compare x y); reflexivity.
Qed.

(** A match of the queried team, not against itself, is exactly one of a
    win, a draw and a loss. *)
Lemma q2_outcome_unique (t s : string) (m : Match.t) :
  q2_match t s m = true -> self_match t s m = false ->
  b2z (q2_win t m) + b2z (q2_draw m) + b2z (q2_loss t m) = 1.
Proof.
  unfold self_match, q2_win, q2_loss, q2_draw; intros Hq Hs.
  rewrite Hq in Hs; simpl in Hs.
  unfold q2_match in Hq; apply andb_prop in Hq as [_ Hq].
  pose proof (bson_trichotomy (Match.home_team_goal m) (Match.away_team_goal m)) as T.
  destruct (String.eqb (Match.home_team_name m) t), (String.eqb (Match.away_team_name m) t);
    simpl in *; try discriminate.
  - rewrite !orb_false_r; lia.
  - rewrite (bson_gt_lt (Match.away_team_goal m)).
    rewrite <- (bson_gt_lt (Match.home_team_goal m) (Match.away_team_goal m)).
    lia.
Qed.

(** ** Standings order *)






(** ** The claims *)

(** C1 (enumeration of the standings' teams). The standings enumerate the
    teams with [distinct('home_team_name', ...)] only: in a league-season
    where [B] plays only away, [B] gets no row, although its own season
    record exists. *)
Theorem standings_drop_away_only_team :
  map TeamSeasonRecord.team (query_8_league_standings away_only_matches "L" "S") = ["A"]
  /\ query_2_team_season_record "B" "S" away_only_matches <> None.
Proof. split; vm_compute; [reflexivity | discriminate]. Qed.

(** C2 (league filter of the top-player ranking). The league name has no
    effect on the ranking; in particular a player whose league has no match
    at all is ranked when that league is asked for. *)
Theorem top_players_ignore_league :
  (forall st league_name limit,
      query_3_top_players_by_rating st (Some league_name) limit
      = query_3_top_players_by_rating st None limit)
  /\ forallb (fun m => negb (String.eqb (Match.league_name m) "L"))
       (matches no_league_match_store) = true
  /\ match query_3_top_players_by_rating no_league_match_store (Some "L") 10 with
     | inr rows => map TopPlayerEntry.player_name rows = ["P"]
     | inl _ => False
     end.
Proof.
  split; [intros; reflexivity |].
  split; vm_compute; reflexivity.
Qed.

(** C3 (counterexample). A name with no identity record and a name whose
    identity has no snapshot give the same answer, the empty sequence: the
    first is not signalled as not found. *)
Theorem rating_series_unknown_name_not_signalled :
  query_5_player_attributes_over_time nameless_store "X" = []
  /\ query_5_player_attributes_over_time snapshotless_store "X" = []
  /\ ~ (exists p, In p (players nameless_store) /\ Player.player_name p = "X")
  /\ (exists p, In p (players snapshotless_store) /\ Player.player_name p = "X").
Proof.
  split; [reflexivity |]. split; [reflexivity |].
  split.
  - intros (p & Hp & _); destruct Hp.
  - exists (Player.mk 7 "X" None None); split; [left |]; reflexivity.
Qed.

Lemma lookup_unwind_in (st : Store) (ps : list Player.t) (p : Player.t)
  (a : PlayerAttributes.t) :
  In (p, a) (lookup_unwind st ps) <->
  In p ps /\ In a (player_attributes st)
  /\ PlayerAttributes.player_api_id a = Player.player_api_id p.
Proof.
  unfold lookup_unwind, lookup_attributes; rewrite in_flat_map; split.
  - intros (p' & Hp' & Hin); apply in_map_iff in Hin as (a' & E & Ha').
    inversion E; subst; apply filter_In in Ha' as [Ha Hid].
    repeat split; [assumption | assumption | apply Z.eqb_eq; assumption].
  - intros (Hp & Ha & Hid); exists p; split; [assumption |].
    apply in_map_iff; exists a; split; [reflexivity |].
    apply filter_In; split; [assumption | apply Z.eqb_eq; assumption].
Qed.

(** C3 (as amended). The rating time series is empty exactly when no
    identity record with that name has a snapshot: an unknown name and a
    known name without snapshots both give the empty sequence. *)
Theorem rating_series_empty_iff (st : Store) (name : string) :
  query_5_player_attributes_over_time st name = []
  <-> ~ resolves_with_snapshot st name.
Proof.
  unfold query_5_player_attributes_over_time, resolves_with_snapshot.
  set (ps := filter _ (players st)).
  rewrite <- length_zero_iff_nil, sort_by_length, length_map, length_zero_iff_nil.
  split.
  - intros E (p & a & Hp & Hn & Ha & Hid).
    assert (Hin : In (p, a) (lookup_unwind st ps)).
    { apply lookup_unwind_in; repeat split; try assumption.
      apply filter_In; split; [assumption | apply String.eqb_eq; assumption]. }
    rewrite E in Hin; destruct Hin.
  - intros Hn; destruct (lookup_unwind st ps) as [| [p a] l] eqn:E; [reflexivity |].
    exfalso; apply Hn.
    assert (Hin : In (p, a) (lookup_unwind st ps)) by (rewrite E; left; reflexivity).
    apply lookup_unwind_in in Hin as (Hp & Ha & Hid).
    apply filter_In in Hp as [Hp Hpn].
    exists p, a; repeat split; try assumption; apply String.eqb_eq; assumption.
Qed.



(** C5 (counterexample). With limit 0 the ranking raises no error of its
    own: the error is the server's rejection of the [$limit] stage. *)
Theorem top_players_limit0_server_error :
  query_3_top_players_by_rating nameless_store None 0
    = inl (OperationFailure 15958 "the limit must be positive")
  /\ (forall msg, query_3_top_players_by_rating nameless_store None 0
                  <> inl (InvalidArgument msg)).
Proof.
  split; [reflexivity |].
  intros msg; vm_compute; discriminate.
Qed.

(** C5 (as amended). For every limit <= 0 the ranking returns no result:
    the limit goes unchecked and unclamped to the [$limit] stage, and the
    ranker raises no [InvalidArgument] of its own. The error comes from the
    server for limit 0 (15958) and for a negative limit in the int64 range
    (5107201), and from the driver's BSON encoder below that range. *)
Theorem top_players_nonpositive_limit (st : Store) (league_name : option string)
  (limit : Z) :
  limit <= 0 ->
  exists e, query_3_top_players_by_rating st league_name limit = inl e
  /\ (forall msg, e <> InvalidArgument msg)
  /\ (limit = 0 -> e = OperationFailure 15958 "the limit must be positive")
  /\ (int64_min <= limit < 0 ->
      e = OperationFailure 5107201 "invalid argument to $limit stage")
  /\ (limit < int64_min -> e = OverflowError "MongoDB can only handle up to 8-byte ints").
Proof.
  intros Hl; unfold query_3_top_players_by_rating, limit_stage.
  assert (Hmax : limit <= int64_max) by (unfold int64_max; lia).
  destruct (Z.ltb_spec limit int64_min) as [Hlo | Hlo]; cbn [orb].
  - eexists; split; [reflexivity |].
    split; [discriminate |].
    split; [intros ->; unfold int64_min in Hlo; lia |].
    split; [intros H; lia | reflexivity].
  - destruct (Z.ltb_spec int64_max limit) as [Hhi | _]; [lia |].
    destruct (Z.ltb_spec limit 0) as [Hneg | Hnn].
    + eexists; split; [reflexivity |].
      split; [discriminate |].
      split; [intros ->; lia |].
      split; [reflexivity | intros H; lia].
    + assert (H0 : limit = 0) by lia; subst limit; cbn [Z.eqb].
      eexists; split; [reflexivity |].
      split; [discriminate |].
      split; [reflexivity |].
      split; intros H; lia.
Qed.

Lemma top_players_nonpositive_limit_witness :
  (0 <= 0 /\
   exists e, query_3_top_players_by_rating no_league_match_store (Some "L") 0 = inl e
   /\ (forall msg, e <> InvalidArgument msg)
   /\ (0 = 0 -> e = OperationFailure 15958 "the limit must be positive")
   /\ (int64_min <= 0 < 0 ->
       e = OperationFailure 5107201 "invalid argument to $limit stage")
   /\ (0 < int64_min -> e = OverflowError "MongoDB can only handle up to 8-byte ints"))
  /\ (-5 <= 0 /\
   exists e, query_3_top_players_by_rating no_league_match_store (Some "L") (-5) = inl e
   /\ (forall msg, e <> InvalidArgument msg)
   /\ (-5 = 0 -> e = OperationFailure 15958 "the limit must be positive")
   /\ (int64_min <= -5 < 0 ->
       e = OperationFailure 5107201 "invalid argument to $limit stage")
   /\ (-5 < int64_min -> e = OverflowError "MongoDB can only handle up to 8-byte ints"))
  /\ (- 2 ^ 64 <= 0 /\
   exists e, query_3_top_players_by_rating no_league_match_store (Some "L") (- 2 ^ 64) = inl e
   /\ (forall msg, e <> InvalidArgument msg)
   /\ (- 2 ^ 64 = 0 -> e = OperationFailure 15958 "the limit must be positive")
   /\ (int64_min <= - 2 ^ 64 < 0 ->
       e = OperationFailure 5107201 "invalid argument to $limit stage")
   /\ (- 2 ^ 64 < int64_min ->
       e = OverflowError "MongoDB can only handle up to 8-byte ints")).
Proof.
  split; [split; [lia | apply (top_players_nonpositive_limit no_league_match_store (Some "L") 0); lia] |].
  split; [split; [lia | apply (top_players_nonpositive_limit no_league_match_store (Some "L") (-5)); lia] |].
  split; [lia | apply (top_players_nonpositive_limit no_league_match_store (Some "L") (- 2 ^ 64)); lia].
Defined.

(** C6 (counterexample). On [(2,1), (2,1), (1,1)] with limit 2 the scorelines
    are not rendered ["2-1"] and ["1-1"]. *)
Theorem scorelines_not_hyphen_only :
  exists rows, query_6_common_scorelines scoreline_store 2 = inr rows
  /\ map ScorelineTally.scoreline rows <> [Some "2-1"; Some "1-1"].
Proof.
  exists scoreline_expected; split; [vm_compute; reflexivity | discriminate].
Qed.

(** C6 (as amended). For three matches whose goal pairs are [(2,1), (2,1),
    (1,1)] in any order, whatever their other fields, the scoreline count
    with limit 2 is [2 - 1] twice then [1 - 1] once, the scoreline written
    with the separator [" - "]. *)
Theorem scorelines_two_one_example (m1 m2 m3 : Match.t) (ps : list Player.t)
  (attrs : list PlayerAttributes.t) :
  In (map (fun m => (Match.home_team_goal m, Match.away_team_goal m)) [m1; m2; m3])
    [[(Some 2, Some 1); (Some 2, Some 1); (Some 1, Some 1)];
     [(Some 2, Some 1); (Some 1, Some 1); (Some 2, Some 1)];
     [(Some 1, Some 1); (Some 2, Some 1); (Some 2, Some 1)]] ->
  query_6_common_scorelines (mkStore [m1; m2; m3] ps attrs) 2 = inr scoreline_expected.
Proof.
  destruct m1 as [l1 s1 h1 a1 hg1 ag1 r1], m2 as [l2 s2 h2 a2 hg2 ag2 r2],
    m3 as [l3 s3 h3 a3 hg3 ag3 r3]; simpl.
  intros [E | [E | [E | []]]]; inversion E; subst; reflexivity.
Qed.

Lemma scorelines_two_one_example_witness :
  query_6_common_scorelines scoreline_store 2 = inr scoreline_expected.
Proof.
  apply (scorelines_two_one_example
           (load_match "L" "S" "A" "B" (Some 2) (Some 1))
           (load_match "L" "S" "C" "D" (Some 2) (Some 1))
           (load_match "L" "S" "A" "D" (Some 1) (Some 1)) [] []).
  simpl; left; reflexivity.
Defined.

(** C7 (code defect). A match classified [unknown] (one goal count null) is
    still tallied: null sorts below every number in [$gt], so the side with
    a goal count gets a win. The spec's scenario itself comes out as stated. *)
Theorem record_tallies_unknown_match :
  map Match.result half_known_matches = [unknown]
  /\ option_map TeamSeasonRecord.wins
       (query_2_team_season_record "A" "2020" half_known_matches) = Some 1
  /\ option_map (fun r => (TeamSeasonRecord.wins r, TeamSeasonRecord.draws r,
                           TeamSeasonRecord.losses r, TeamSeasonRecord.goals_scored r,
                           TeamSeasonRecord.goals_conceded r, TeamSeasonRecord.points r))
       (query_2_team_season_record "A" "2020" scenario_matches)
     = Some (1, 1, 0, 2, 1, 4).
Proof. repeat split; vm_compute; reflexivity. Qed.

(** C8 (counterexample). A match with the queried team on both sides and a
    winner counts as one match, one win and one loss. *)
Theorem record_self_match_win_and_loss :
  option_map (fun r => (TeamSeasonRecord.matches_played r, TeamSeasonRecord.wins r,
                        TeamSeasonRecord.draws r, TeamSeasonRecord.losses r))
    (query_2_team_season_record "A" "S" self_matches) = Some (1, 1, 0, 1).
Proof. vm_compute; reflexivity. Qed.

Lemma query_2_some (t s : string) (ms : list Match.t) (r : TeamSeasonRecord.t) :
  query_2_team_season_record t s ms = Some r ->
  r = q2_record t s (filter (q2_match t s) ms).
Proof.
  unfold query_2_team_season_record.
  destruct (filter (q2_match t s) ms); intros E; inversion E; reflexivity.
Qed.

Lemma record_fields (t s : string) (ms : list Match.t) :
  let r := q2_record t s ms in
  TeamSeasonRecord.team r = t
  /\ TeamSeasonRecord.goal_difference r
     = TeamSeasonRecord.goals_scored r - TeamSeasonRecord.goals_conceded r
  /\ TeamSeasonRecord.points r = 3 * TeamSeasonRecord.wins r + TeamSeasonRecord.draws r.
Proof.
  cbv zeta; unfold q2_record.
  cbn [TeamSeasonRecord.team TeamSeasonRecord.goal_difference TeamSeasonRecord.points
       TeamSeasonRecord.goals_scored TeamSeasonRecord.goals_conceded
       TeamSeasonRecord.wins TeamSeasonRecord.draws].
  split; [reflexivity | split; lia].
Qed.

Lemma record_matches_played (t s : string) (ms : list Match.t) :
  no_self_match t s ms = true ->
  let r := q2_record t s (filter (q2_match t s) ms) in
  TeamSeasonRecord.matches_played r
  = TeamSeasonRecord.wins r + TeamSeasonRecord.draws r + TeamSeasonRecord.losses r.
Proof.
  intros Hn; simpl.
  rewrite <- (sum_cond_partition (q2_win t) q2_draw (q2_loss t)); [reflexivity |].
  intros m Hin; apply filter_In in Hin as [Hin Hq].
  apply (q2_outcome_unique t s); [exact Hq |].
  unfold no_self_match in Hn; rewrite forallb_forall in Hn.
  apply negb_true_iff, Hn, Hin.
Qed.

Lemma in_insert_by {A : Type} (before : A -> A -> bool) (x y : A) (l : list A) :
  In y (insert_by before x l) -> y = x \/ In y l.
Proof.
  induction l as [| z l IH]; simpl; [intuition |].
  destruct (before x z); simpl; intuition.
Qed.

Lemma in_sort_by {A : Type} (before : A -> A -> bool) (y : A) (l : list A) :
  In y (sort_by before l) -> In y l.
Proof.
  induction l as [| x l IH]; simpl; [intuition |].
  intros H; apply in_insert_by in H; intuition.
Qed.

Lemma in_enumerate_positions (i : Z) (l : list TeamSeasonRecord.t) (r : TeamSeasonRecord.t) :
  In r (enumerate_positions i l) -> exists r0 j, In r0 l /\ r = set_position r0 j.
Proof.
  revert i; induction l as [| a l IH]; simpl; intros i H; [destruct H |].
  destruct H as [E | H].
  - exists a, i; split; [left |]; congruence.
  - destruct (IH _ H) as (r0 & j & Hin & E); exists r0, j; split; [right |]; assumption.
Qed.

Lemma in_collect_records (s : string) (ms : list Match.t) (ts : list string)
  (r : TeamSeasonRecord.t) :
  In r (collect_records s ms ts) -> exists t, query_2_team_season_record t s ms = Some r.
Proof.
  induction ts as [| t ts IH]; simpl; [intros [] |].
  destruct (query_2_team_season_record t s ms) eqn:E; [| exact IH].
  intros [H | H]; [exists t; congruence | exact (IH H)].
Qed.

(** C8 (as amended). Every record, and every row of the standings, has
    [goal_difference = goals_scored - goals_conceded] and
    [points = 3 * wins + draws]; [matches_played = wins + draws + losses]
    holds when no match of the team's season has the team on both sides. *)
Theorem record_invariants :
  (forall t s ms r, query_2_team_season_record t s ms = Some r ->
     TeamSeasonRecord.goal_difference r
       = TeamSeasonRecord.goals_scored r - TeamSeasonRecord.goals_conceded r
     /\ TeamSeasonRecord.points r = 3 * TeamSeasonRecord.wins r + TeamSeasonRecord.draws r
     /\ (no_self_match t s ms = true ->
         TeamSeasonRecord.matches_played r
         = TeamSeasonRecord.wins r + TeamSeasonRecord.draws r + TeamSeasonRecord.losses r))
  /\ (forall ms league_name s r, In r (query_8_league_standings ms league_name s) ->
     TeamSeasonRecord.goal_difference r
       = TeamSeasonRecord.goals_scored r - TeamSeasonRecord.goals_conceded r
     /\ TeamSeasonRecord.points r = 3 * TeamSeasonRecord.wins r + TeamSeasonRecord.draws r
     /\ (no_self_match (TeamSeasonRecord.team r) s ms = true ->
         TeamSeasonRecord.matches_played r
         = TeamSeasonRecord.wins r + TeamSeasonRecord.draws r + TeamSeasonRecord.losses r)).
Proof.
  assert (Hq2 : forall t s ms r, query_2_team_season_record t s ms = Some r ->
     TeamSeasonRecord.team r = t
     /\ TeamSeasonRecord.goal_difference r
       = TeamSeasonRecord.goals_scored r - TeamSeasonRecord.goals_conceded r
     /\ TeamSeasonRecord.points r = 3 * TeamSeasonRecord.wins r + TeamSeasonRecord.draws r
     /\ (no_self_match t s ms = true ->
         TeamSeasonRecord.matches_played r
         = TeamSeasonRecord.wins r + TeamSeasonRecord.draws r + TeamSeasonRecord.losses r)).
  { intros t s ms r E; apply query_2_some in E; subst r.
    destruct (record_fields t s (filter (q2_match t s) ms)) as (H1 & H2 & H3).
    repeat split; try assumption.
    intros Hn; exact (record_matches_played t s ms Hn). }
  split.
  - intros t s ms r E; destruct (Hq2 t s ms r E) as (_ & H); exact H.
  - intros ms league_name s r Hin.
    unfold query_8_league_standings in Hin.
    apply in_enumerate_positions in Hin as (r0 & j & Hin & ->).
    apply in_sort_by, in_collect_records in Hin as (t & E).
    destruct (Hq2 t s ms r0 E) as (Ht & H1 & H2 & H3).
    simpl; rewrite Ht; repeat split; assumption.
Qed.

Lemma record_invariants_witness :
  no_self_match "A" "2020" scenario_matches = true
  /\ TeamSeasonRecord.matches_played (q2_record "A" "2020" scenario_matches)
     = TeamSeasonRecord.wins (q2_record "A" "2020" scenario_matches)
       + TeamSeasonRecord.draws (q2_record "A" "2020" scenario_matches)
       + TeamSeasonRecord.losses (q2_record "A" "2020" scenario_matches).
Proof.
  split; [reflexivity |].
  refine (proj2 (proj2 (proj1 record_invariants "A" "2020" scenario_matches
                          (q2_record "A" "2020" scenario_matches) _)) _);
    reflexivity.
Defined.

(** C9 (counterexample). With the same name passed twice, a match with that
    team on both sides and a winner counts as a win for both labels. *)
Theorem head_to_head_same_name_double_win :
  option_map (fun h => (HeadToHeadRecord.total_matches h, HeadToHeadRecord.team1_wins h,
                        HeadToHeadRecord.team2_wins h, HeadToHeadRecord.draws h))
    (query_9_head_to_head "A" "A" self_matches) = Some (1, 1, 1, 0).
Proof. vm_compute; reflexivity. Qed.

Lemma q9_outcome_unique (t1 t2 : string) (m : Match.t) :
  t1 <> t2 -> q9_match t1 t2 m = true ->
  b2z (q9_win t1 m) + b2z (q9_win t2 m)
  + b2z (bson_eq (Match.home_team_goal m) (Match.away_team_goal m)) = 1.
Proof.
  intros Hne Hq; unfold q9_match in Hq; unfold q9_win.
  pose proof (bson_trichotomy (Match.home_team_goal m) (Match.away_team_goal m)) as T.
  destruct (String.eqb_spec (Match.home_team_name m) t1),
    (String.eqb_spec (Match.away_team_name m) t1),
    (String.eqb_spec (Match.home_team_name m) t2),
    (String.eqb_spec (Match.away_team_name m) t2);
    simpl in Hq |- *; try discriminate; try congruence;
    rewrite ?orb_false_r, ?(bson_gt_lt (Match.away_team_goal m)); lia.
Qed.

Lemma q9_match_sym (t1 t2 : string) (m : Match.t) :
  q9_match t2 t1 m = q9_match t1 t2 m.
Proof. unfold q9_match; apply orb_comm. Qed.

(** C9 (as amended). Exchanging the two names exchanges the two win counts
    (and the labels) and keeps the totals; for two different names,
    [team1_wins + team2_wins + draws = total_matches]. *)
Theorem head_to_head_swap_and_sum (ms : list Match.t) (team1 team2 : string) :
  query_9_head_to_head team2 team1 ms
  = option_map swap_sides (query_9_head_to_head team1 team2 ms)
  /\ (team1 <> team2 -> forall h, query_9_head_to_head team1 team2 ms = Some h ->
      HeadToHeadRecord.team1_wins h + HeadToHeadRecord.team2_wins h
      + HeadToHeadRecord.draws h = HeadToHeadRecord.total_matches h).
Proof.
  unfold query_9_head_to_head.
  rewrite (filter_ext (q9_match team2 team1) (q9_match team1 team2) (q9_match_sym team1 team2)).
  split.
  - destruct (filter (q9_match team1 team2) ms); reflexivity.
  - intros Hne h E.
    destruct (filter (q9_match team1 team2) ms) as [| m l] eqn:F; [discriminate |].
    inversion E; subst h; unfold q9_record.
    cbn [HeadToHeadRecord.team1_wins HeadToHeadRecord.team2_wins
         HeadToHeadRecord.draws HeadToHeadRecord.total_matches].
    rewrite <- F.
    apply sum_cond_partition.
    intros m' Hin; apply filter_In in Hin as [_ Hq].
    apply q9_outcome_unique; assumption.
Qed.

Lemma head_to_head_swap_and_sum_witness :
  "A" <> "B" /\
  option_map (fun h => HeadToHeadRecord.team1_wins h + HeadToHeadRecord.team2_wins h
                       + HeadToHeadRecord.draws h
                       - HeadToHeadRecord.total_matches h)
    (query_9_head_to_head "A" "B" scenario_matches) = Some 0.
Proof.
  assert (Hne : "A" <> "B") by discriminate.
  split; [exact Hne |].
  destruct (query_9_head_to_head "A" "B" scenario_matches) as [h |] eqn:E;
    [| vm_compute in E; discriminate].
  simpl; f_equal.
  rewrite (proj2 (head_to_head_swap_and_sum scenario_matches "A" "B") Hne h E); lia.
Defined.

(** C10. A qualifying match whose two goal counts are null counts as a draw:
    one more match, one more draw and one more point, the win and loss
    tallies and the goals unchanged. *)
Theorem record_counts_null_null_as_draw (t s : string) (m : Match.t) (ms : list Match.t) :
  q2_match t s m = true ->
  Match.home_team_goal m = None -> Match.away_team_goal m = None ->
  let r0 := q2_record t s (filter (q2_match t s) ms) in
  query_2_team_season_record t s (m :: ms)
  = Some (TeamSeasonRecord.mk t s
            (TeamSeasonRecord.matches_played r0 + 1) (TeamSeasonRecord.wins r0)
            (TeamSeasonRecord.draws r0 + 1) (TeamSeasonRecord.losses r0)
            (TeamSeasonRecord.goals_scored r0) (TeamSeasonRecord.goals_conceded r0)
            (TeamSeasonRecord.goal_difference r0) (TeamSeasonRecord.points r0 + 1) None).
Proof.
  intros Hq Hh Ha r0; subst r0.
  assert (Hw : q2_win t m = false)
    by (unfold q2_win; rewrite Hh, Ha, !andb_false_r; reflexivity).
  assert (Hl : q2_loss t m = false)
    by (unfold q2_loss; rewrite Hh, Ha, !andb_false_r; reflexivity).
  assert (Hd : q2_draw m = true) by (unfold q2_draw; rewrite Hh, Ha; reflexivity).
  assert (Hs : sum_value (q2_scored t m) = 0)
    by (unfold q2_scored; rewrite Hh, Ha; destruct (String.eqb _ t); reflexivity).
  assert (Hc : sum_value (q2_conceded t m) = 0)
    by (unfold q2_conceded; rewrite Hh, Ha; destruct (String.eqb _ t); reflexivity).
  unfold query_2_team_season_record; cbn [filter]; rewrite Hq; cbv beta iota.
  unfold q2_record; cbv zeta.
  rewrite !sum_cond_cons, !sum_field_cons, Hw, Hl, Hd, Hs, Hc.
  cbn [b2z TeamSeasonRecord.matches_played TeamSeasonRecord.wins TeamSeasonRecord.draws
       TeamSeasonRecord.losses TeamSeasonRecord.goals_scored TeamSeasonRecord.goals_conceded
       TeamSeasonRecord.goal_difference TeamSeasonRecord.points].
  f_equal; f_equal; lia.
Qed.

Lemma record_counts_null_null_as_draw_witness :
  let r0 := q2_record "A" "2020" (filter (q2_match "A" "2020") (tl null_null_matches)) in
  query_2_team_season_record "A" "2020" null_null_matches
  = Some (TeamSeasonRecord.mk "A" "2020"
            (TeamSeasonRecord.matches_played r0 + 1) (TeamSeasonRecord.wins r0)
            (TeamSeasonRecord.draws r0 + 1) (TeamSeasonRecord.losses r0)
            (TeamSeasonRecord.goals_scored r0) (TeamSeasonRecord.goals_conceded r0)
            (TeamSeasonRecord.goal_difference r0) (TeamSeasonRecord.points r0 + 1) None).
Proof.
  exact (record_counts_null_null_as_draw "A" "2020"
           (load_match "L" "2020" "A" "B" None None)
           [load_match "L" "2020" "A" "C" (Some 3) (Some 0)] eq_refl eq_refl eq_refl).
Defined.

(** ** Lemmas on sorting and grouping *)

Lemma insert_by_perm {A : Type} (before : A -> A -> bool) (x : A) (l : list A) :
  Permutation (insert_by before x l) (x :: l).
Proof.
  induction l as [| y l IH]; simpl; [reflexivity |].
  destruct (before x y); [reflexivity |].
  rewrite IH; apply perm_swap.
Qed.

Lemma sort_by_perm {A : Type} (before : A -> A -> bool) (l : list A) :
  Permutation (sort_by before l) l.
Proof.
  induction l as [| x l IH]; simpl; [reflexivity |].
  rewrite insert_by_perm, IH; reflexivity.
Qed.

Lemma sorted_firstn {A : Type} (R : A -> A -> Prop) (n : nat) (l : list A) :
  Sorted R l -> Sorted R (firstn n l).
Proof.
  revert n; induction l as [| x l IH]; intros n Hs; destruct n; simpl;
    try solve [constructor].
  inversion Hs as [| ? ? Hl Hh]; subst.
  constructor; [apply IH; exact Hl |].
  destruct l as [| y l]; destruct n; simpl; constructor.
  inversion Hh; assumption.
Qed.

Section GroupByLemmas.
Context {A K : Type}.
Variables (key : A -> K) (key_eqb : K -> K -> bool).
Hypothesis key_eqb_spec : forall a b, key_eqb a b = true <-> a = b.

Lemma key_eqb_refl (k : K) : key_eqb k k = true.
Proof. apply key_eqb_spec; reflexivity. Qed.

Lemma key_eqb_false (a b : K) : key_eqb a b = false -> a <> b.
Proof. intros H E; subst; rewrite key_eqb_refl in H; discriminate. Qed.

Lemma add_to_groups_members_perm (x : A) (gs : list (K * A * list A)) :
  Permutation (flat_map (fun g => snd (fst g) :: snd g) (add_to_groups key key_eqb x gs))
    (app (flat_map (fun g => snd (fst g) :: snd g) gs) [x]).
Proof.
  induction gs as [| [[k x0] xs] gs IH]; simpl; [reflexivity |].
  destruct (key_eqb k (key x)); simpl; constructor.
  - rewrite <- !app_assoc; apply Permutation_app_head, Permutation_app_comm.
  - rewrite <- app_assoc; apply Permutation_app_head, IH.
Qed.

Lemma group_by_members_perm (l : list A) :
  Permutation (flat_map (fun g => snd (fst g) :: snd g) (group_by key key_eqb l)) l.
Proof.
  unfold group_by.
  assert (G : forall acc,
             Permutation (flat_map (fun g => snd (fst g) :: snd g)
                            (fold_left (fun gs x => add_to_groups key key_eqb x gs) l acc))
               (app (flat_map (fun g => snd (fst g) :: snd g) acc) l)).
  { induction l as [| x l IH]; intros acc; simpl; [rewrite app_nil_r; reflexivity |].
    rewrite IH, add_to_groups_members_perm, <- app_assoc; reflexivity. }
  apply G.
Qed.

Lemma add_to_groups_keys (x : A) (gs : list (K * A * list A)) :
  map (fun g => fst (fst g)) (add_to_groups key key_eqb x gs)
  = app (map (fun g => fst (fst g)) gs)
    (if existsb (fun k => key_eqb k (key x)) (map (fun g => fst (fst g)) gs)
        then [] else [key x]).
Proof.
  induction gs as [| [[k x0] xs] gs IH]; simpl; [reflexivity |].
  destruct (key_eqb k (key x)); simpl; [rewrite app_nil_r; reflexivity |].
  rewrite IH; reflexivity.
Qed.

Lemma in_add_to_groups (x : A) (gs : list (K * A * list A)) (g : K * A * list A) :
  NoDup (map (fun g => fst (fst g)) gs) ->
  In g (add_to_groups key key_eqb x gs) ->
  (In g gs /\ fst (fst g) <> key x)
  \/ (exists k x0 xs, In (k, x0, xs) gs /\ k = key x /\ g = (k, x0, app xs [x]))
  \/ (g = (key x, x, []) /\ ~ In (key x) (map (fun g => fst (fst g)) gs)).
Proof.
  induction gs as [| [[k x0] xs] gs IH]; simpl; intros Hnd Hin.
  - destruct Hin as [<- | []]; right; right; split; [reflexivity | intros []].
  - inversion Hnd as [| ? ? Hk Hnd']; subst.
    destruct (key_eqb k (key x)) eqn:E.
    + apply key_eqb_spec in E; subst k.
      destruct Hin as [<- | Hin].
      * right; left; exists (key x), x0, xs; repeat split; left; reflexivity.
      * left; split; [right; exact Hin |].
        intros E; apply Hk; rewrite <- E; exact (in_map (fun g => fst (fst g)) _ _ Hin).
    + apply key_eqb_false in E.
      destruct Hin as [<- | Hin]; [left; split; [left; reflexivity | exact E] |].
      destruct (IH Hnd' Hin) as [(H1 & H2) | [(k' & x0' & xs' & H1 & H2 & H3) | (H1 & H2)]].
      * left; split; [right |]; assumption.
      * right; left; exists k', x0', xs'; repeat split; [right |..]; assumption.
      * right; right; split; [assumption |].
        intros [E' | E']; [exact (E E') | exact (H2 E')].
Qed.

(** What the groups built from the documents [seen] so far keep: each group
    holds exactly the documents of [seen] with its key, in order; the keys
    are distinct; every document's key has a group. *)
Definition groups_inv (gs : list (K * A * list A)) (seen : list A) : Prop :=
  (forall g, In g gs ->
     snd (fst g) :: snd g = filter (fun y => key_eqb (fst (fst g)) (key y)) seen)
  /\ NoDup (map (fun g => fst (fst g)) gs)
  /\ (forall y, In y seen -> In (key y) (map (fun g => fst (fst g)) gs)).

Lemma filter_none {B : Type} (f : B -> bool) (l : list B) :
  (forall y, In y l -> f y = false) -> filter f l = [].
Proof.
  induction l as [| y l IH]; simpl; intros H; [reflexivity |].
  rewrite (H y (or_introl eq_refl)); apply IH; intros z Hz; apply H; right; exact Hz.
Qed.

Lemma add_to_groups_inv (x : A) (gs : list (K * A * list A)) (seen : list A) :
  groups_inv gs seen -> groups_inv (add_to_groups key key_eqb x gs) (app seen [x]).
Proof.
  intros (Hm & Hnd & Hc); split; [| split].
  - intros g Hin; rewrite filter_app; simpl.
    destruct (in_add_to_groups x gs g Hnd Hin)
      as [(H1 & H2) | [(k & x0 & xs & H1 & H2 & ->) | (-> & H2)]].
    + destruct (key_eqb (fst (fst g)) (key x)) eqn:E;
        [apply key_eqb_spec in E; contradiction |].
      rewrite app_nil_r; apply Hm, H1.
    + subst k; simpl; rewrite key_eqb_refl.
      pose proof (Hm _ H1) as Hg; simpl in Hg; rewrite <- Hg; reflexivity.
    + simpl; rewrite key_eqb_refl, filter_none; [reflexivity |].
      intros y Hy; destruct (key_eqb (key x) (key y)) eqn:E; [| reflexivity].
      apply key_eqb_spec in E; exfalso; apply H2; rewrite E; apply Hc, Hy.
  - rewrite add_to_groups_keys.
    destruct (existsb _ _) eqn:E; [rewrite app_nil_r; exact Hnd |].
    apply NoDup_app; [exact Hnd | repeat constructor; intros [] |].
    intros k Hk [<- | []].
    assert (Hx : existsb (fun k => key_eqb k (key x)) (map (fun g => fst (fst g)) gs) = true)
      by (apply existsb_exists; exists (key x); split; [exact Hk | apply key_eqb_refl]).
    rewrite Hx in E; discriminate.
  - intros y Hy; rewrite add_to_groups_keys, in_app_iff.
    apply in_app_or in Hy as [Hy | [<- | []]]; [left; apply Hc, Hy |].
    destruct (existsb _ _) eqn:E; [left | right; left; reflexivity].
    apply existsb_exists in E as (k & Hk & Ek); apply key_eqb_spec in Ek; subst k; exact Hk.
Qed.

Lemma group_by_inv (l : list A) : groups_inv (group_by key key_eqb l) l.
Proof.
  unfold group_by.
  assert (G : forall acc seen, groups_inv acc seen ->
             groups_inv (fold_left (fun gs x => add_to_groups key key_eqb x gs) l acc)
               (app seen l)).
  { induction l as [| x l IH]; intros acc seen H; simpl; [rewrite app_nil_r; exact H |].
    replace (app seen (x :: l)) with (app (app seen [x]) l)
      by (rewrite <- app_assoc; reflexivity).
    apply IH, add_to_groups_inv, H. }
  apply (G [] []).
  split; [intros g [] | split; [constructor | intros y []]].
Qed.
End GroupByLemmas.

(** ** Further lemmas on the pipeline stages *)

Lemma sorted_impl {A : Type} (R R' : A -> A -> Prop) (l : list A) :
  (forall a b, R a b -> R' a b) -> Sorted R l -> Sorted R' l.
Proof.
  intros HR Hs; induction Hs as [| x l Hs IH Hh]; constructor; [exact IH |].
  destruct Hh; constructor; apply HR; assumption.
Qed.

Lemma in_firstn_in {A : Type} (n : nat) (l : list A) (x : A) :
  In x (firstn n l) -> In x l.
Proof. intros H; rewrite <- (firstn_skipn n l); apply in_or_app; left; exact H. Qed.

Lemma nodup_map_firstn {A B : Type} (f : A -> B) (n : nat) (l : list A) :
  NoDup (map f l) -> NoDup (map f (firstn n l)).
Proof.
  revert n; induction l as [| x l IH]; intros n H; destruct n; simpl;
    try solve [constructor].
  inversion H as [| ? ? Hx Hl]; subst; constructor; [| apply IH, Hl].
  intros Hin; apply Hx; apply in_map_iff in Hin as (y & <- & Hy).
  apply in_map, (in_firstn_in n), Hy.
Qed.

Lemma sum_map_perm {A : Type} (f : A -> Z) (l l' : list A) :
  Permutation l l' -> fold_right Z.add 0 (map f l) = fold_right Z.add 0 (map f l').
Proof. induction 1; simpl; lia. Qed.

Lemma group_members_length_ge {A K : Type} (gs : list (K * A * list A)) :
  (List.length gs <= List.length (flat_map (fun g => snd (fst g) :: snd g) gs))%nat.
Proof.
  induction gs as [| g gs IH]; simpl; [lia |].
  rewrite length_app; simpl; lia.
Qed.

Lemma limit_stage_inr {A : Type} (limit : Z) (l rows : list A) :
  limit_stage limit l = inr rows -> 0 < limit /\ rows = firstn (Z.to_nat limit) l.
Proof.
  unfold limit_stage.
  destruct ((limit <? int64_min) || (int64_max <? limit)); [discriminate |].
  destruct (Z.ltb_spec limit 0); [discriminate |].
  destruct (Z.eqb_spec limit 0); [discriminate |].
  intros E; injection E as <-; split; [lia | reflexivity].
Qed.

Lemma limit_stage_in_range {A : Type} (limit : Z) (l : list A) :
  0 < limit -> limit <= int64_max ->
  limit_stage limit l = inr (firstn (Z.to_nat limit) l).
Proof.
  intros Hpos Hmax; unfold limit_stage.
  destruct (Z.ltb_spec limit int64_min) as [H | _]; [unfold int64_min in H; lia |].
  destruct (Z.ltb_spec int64_max limit) as [H | _]; [lia |]; cbn [orb].
  destruct (Z.ltb_spec limit 0); [lia |].
  destruct (Z.eqb_spec limit 0); [lia | reflexivity].
Qed.

Lemma bson_eq_iff (a b : option Z) : bson_eq a b = true <-> a = b.
Proof.
  unfold bson_eq, bson_cmp; destruct a as [x |], b as [y |]; simpl;
    split; intros H; try discriminate; try congruence.
  - destruct (Z.compare_spec x y); congruence.
  - injection H as ->; rewrite Z.compare_refl; reflexivity.
Qed.

Lemma goal_pair_eqb_spec (x y : option Z * option Z) : goal_pair_eqb x y = true <-> x = y.
Proof.
  destruct x as [a b], y as [c d]; unfold goal_pair_eqb; simpl.
  rewrite andb_true_iff, !bson_eq_iff.
  split; [intros [-> ->]; reflexivity | intros E; inversion E; split; reflexivity].
Qed.

Lemma q6_rows_in (st : Store) (limit : Z) (rows : list ScorelineTally.t)
  (r : ScorelineTally.t) :
  query_6_common_scorelines st limit = inr rows -> In r rows ->
  exists g, In g (group_by (fun m => (Match.home_team_goal m, Match.away_team_goal m))
                   goal_pair_eqb (matches st)) /\ r = q6_group g.
Proof.
  unfold query_6_common_scorelines; intros H Hin.
  apply limit_stage_inr in H as [_ ->].
  apply in_firstn_in, in_sort_by, in_map_iff in Hin as (g & <- & Hg).
  exists g; split; [exact Hg | reflexivity].
Qed.

Lemma q6_occurrences_sum (gs : list ((option Z * option Z) * Match.t * list Match.t)) :
  fold_right Z.add 0 (map ScorelineTally.occurrences (map q6_group gs))
  = Z.of_nat (List.length (flat_map (fun g => snd (fst g) :: snd g) gs)).
Proof.
  induction gs as [| [[[h a] m0] rest] gs IH];
    cbn [map fold_right flat_map q6_group ScorelineTally.occurrences fst snd];
    [reflexivity |].
  rewrite IH, length_app; cbn [List.length]; lia.
Qed.

(** ** Further properties of the queries *)

(** X1. Every row of the scoreline counter counts exactly the matches whose
    (home goals, away goals) pair is the row's pair, nulls included. *)
Theorem scorelines_occurrences_count (st : Store) (limit : Z)
  (rows : list ScorelineTally.t) (r : ScorelineTally.t) :
  query_6_common_scorelines st limit = inr rows -> In r rows ->
  ScorelineTally.occurrences r
  = Z.of_nat (List.length
      (filter (fun m => goal_pair_eqb
                          (ScorelineTally.home_goals r, ScorelineTally.away_goals r)
                          (Match.home_team_goal m, Match.away_team_goal m))
         (matches st))).
Proof.
  intros H Hin; destruct (q6_rows_in st limit rows r H Hin) as (g & Hg & ->).
  destruct (group_by_inv (fun m => (Match.home_team_goal m, Match.away_team_goal m))
              goal_pair_eqb goal_pair_eqb_spec (matches st)) as (Hm & _ & _).
  pose proof (Hm g Hg) as E.
  destruct g as [[[h a] m0] rest]; simpl in E |- *.
  rewrite <- E; reflexivity.
Qed.

Lemma scorelines_occurrences_count_witness :
  query_6_common_scorelines scoreline_store 2 = inr scoreline_expected
  /\ In (ScorelineTally.mk (Some "2 - 1") (Some 2) (Some 1) 2) scoreline_expected
  /\ ScorelineTally.occurrences (ScorelineTally.mk (Some "2 - 1") (Some 2) (Some 1) 2)
     = Z.of_nat (List.length
         (filter (fun m => goal_pair_eqb (Some 2, Some 1)
                             (Match.home_team_goal m, Match.away_team_goal m))
            (matches scoreline_store))).
Proof.
  assert (H : query_6_common_scorelines scoreline_store 2 = inr scoreline_expected)
    by (vm_compute; reflexivity).
  assert (Hin : In (ScorelineTally.mk (Some "2 - 1") (Some 2) (Some 1) 2) scoreline_expected)
    by (left; reflexivity).
  split; [exact H | split; [exact Hin |]].
  exact (scorelines_occurrences_count scoreline_store 2 scoreline_expected _ H Hin).
Defined.

(** X2. No two rows of the scoreline counter have the same pair of goal
    counts. *)
Theorem scorelines_distinct_pairs (st : Store) (limit : Z)
  (rows : list ScorelineTally.t) :
  query_6_common_scorelines st limit = inr rows ->
  NoDup (map (fun r => (ScorelineTally.home_goals r, ScorelineTally.away_goals r)) rows).
Proof.
  unfold query_6_common_scorelines; intros H.
  apply limit_stage_inr in H as [_ ->].
  apply nodup_map_firstn.
  eapply Permutation_NoDup; [symmetry; apply Permutation_map, sort_by_perm |].
  rewrite map_map.
  destruct (group_by_inv (fun m => (Match.home_team_goal m, Match.away_team_goal m))
              goal_pair_eqb goal_pair_eqb_spec (matches st)) as (_ & Hnd & _).
  match goal with
  | |- NoDup (map ?f ?G) =>
      replace (map f G)
        with (map (fun g : (option Z * option Z) * Match.t * list Match.t => fst (fst g)) G)
  end; [exact Hnd |].
  apply map_ext; intros [[[h a] m0] rest]; reflexivity.
Qed.

Lemma scorelines_distinct_pairs_witness :
  query_6_common_scorelines scoreline_store 2 = inr scoreline_expected
  /\ NoDup (map (fun r => (ScorelineTally.home_goals r, ScorelineTally.away_goals r))
              scoreline_expected).
Proof.
  assert (H : query_6_common_scorelines scoreline_store 2 = inr scoreline_expected)
    by (vm_compute; reflexivity).
  split; [exact H | exact (scorelines_distinct_pairs scoreline_store 2 _ H)].
Defined.

(** X3. A row's scoreline is null exactly when one of its two goal counts
    is null ([$toString] and [$concat] propagate null). *)
Theorem scorelines_null_iff (st : Store) (limit : Z) (rows : list ScorelineTally.t)
  (r : ScorelineTally.t) :
  query_6_common_scorelines st limit = inr rows -> In r rows ->
  (ScorelineTally.scoreline r = None
   <-> ScorelineTally.home_goals r = None \/ ScorelineTally.away_goals r = None).
Proof.
  intros H Hin.
  destruct (q6_rows_in st limit rows r H Hin) as ([[[h a] m0] rest] & _ & ->).
  cbn [q6_group ScorelineTally.scoreline ScorelineTally.home_goals ScorelineTally.away_goals].
  destruct h as [h |], a as [a |]; cbv [bson_to_string];
    try destruct (h <? 0); try destruct (a <? 0); simpl;
    split; intros E;
    first [ discriminate | reflexivity | left; reflexivity | right; reflexivity
          | destruct E; discriminate ].
Qed.

Lemma scorelines_null_iff_witness :
  query_6_common_scorelines (mkStore half_known_matches [] []) 5
    = inr [ScorelineTally.mk None (Some 2) None 1]
  /\ In (ScorelineTally.mk None (Some 2) None 1) [ScorelineTally.mk None (Some 2) None 1]
  /\ (ScorelineTally.scoreline (ScorelineTally.mk None (Some 2) None 1) = None
      <-> ScorelineTally.home_goals (ScorelineTally.mk None (Some 2) None 1) = None
          \/ ScorelineTally.away_goals (ScorelineTally.mk None (Some 2) None 1) = None).
Proof.
  assert (H : query_6_common_scorelines (mkStore half_known_matches [] []) 5
              = inr [ScorelineTally.mk None (Some 2) None 1]) by (vm_compute; reflexivity).
  assert (Hin : In (ScorelineTally.mk None (Some 2) None 1)
                  [ScorelineTally.mk None (Some 2) None 1]) by (left; reflexivity).
  split; [exact H | split; [exact Hin |]].
  exact (scorelines_null_iff _ 5 _ _ H Hin).
Defined.

(** X4. The scoreline rows are non-increasing in [occurrences], the limit
    was positive, and there are at most [limit] of them. *)
Theorem scorelines_sorted_bounded (st : Store) (limit : Z) (rows : list ScorelineTally.t) :
  query_6_common_scorelines st limit = inr rows ->
  Sorted (fun a b => ScorelineTally.occurrences b <= ScorelineTally.occurrences a) rows
  /\ 0 < limit /\ Z.of_nat (List.length rows) <= limit.
Proof.
  unfold query_6_common_scorelines; intros H.
  apply limit_stage_inr in H as [Hl ->]; split; [| split; [exact Hl |]].
  - apply sorted_firstn.
    apply (sorted_impl (fun a b => occurrences_before a b = true)).
    + intros a b E; unfold occurrences_before in E; apply Z.leb_le in E; exact E.
    + apply sort_by_sorted; unfold occurrences_before; intros a b E.
      apply Z.leb_gt in E; apply Z.leb_le; lia.
  - match goal with |- context [firstn ?n ?l] => pose proof (firstn_le_length n l) end.
    pose proof (Z2Nat.id limit); lia.
Qed.

Lemma scorelines_sorted_bounded_witness :
  query_6_common_scorelines scoreline_store 2 = inr scoreline_expected
  /\ Sorted (fun a b => ScorelineTally.occurrences b <= ScorelineTally.occurrences a)
       scoreline_expected
  /\ 0 < 2 /\ Z.of_nat (List.length scoreline_expected) <= 2.
Proof.
  assert (H : query_6_common_scorelines scoreline_store 2 = inr scoreline_expected)
    by (vm_compute; reflexivity).
  split; [exact H | exact (scorelines_sorted_bounded scoreline_store 2 _ H)].
Defined.

(** X5. With a positive int64 limit at least the number of matches, the
    query succeeds and nothing is cut off: the occurrences of the rows add
    up to the number of matches. *)
Theorem scorelines_total_occurrences (st : Store) (limit : Z) :
  0 < limit -> limit <= int64_max -> Z.of_nat (List.length (matches st)) <= limit ->
  exists rows, query_6_common_scorelines st limit = inr rows
  /\ fold_right Z.add 0 (map ScorelineTally.occurrences rows)
     = Z.of_nat (List.length (matches st)).
Proof.
  intros Hpos Hmax Hle; unfold query_6_common_scorelines.
  rewrite (limit_stage_in_range _ _ Hpos Hmax).
  eexists; split; [reflexivity |].
  pose proof (group_by_members_perm
                (fun m => (Match.home_team_goal m, Match.away_team_goal m))
                goal_pair_eqb (matches st)) as HP.
  rewrite firstn_all2.
  - rewrite (sum_map_perm _ _ _ (sort_by_perm _ _)), q6_occurrences_sum,
      (Permutation_length HP); reflexivity.
  - rewrite sort_by_length, length_map.
    pose proof (group_members_length_ge
                  (group_by (fun m => (Match.home_team_goal m, Match.away_team_goal m))
                     goal_pair_eqb (matches st))) as HL.
    rewrite (Permutation_length HP) in HL.
    pose proof (Z2Nat.id limit); lia.
Qed.

Lemma scorelines_total_occurrences_witness :
  0 < 3 /\ 3 <= int64_max /\ Z.of_nat (List.length (matches scoreline_store)) <= 3
  /\ exists rows, query_6_common_scorelines scoreline_store 3 = inr rows
     /\ fold_right Z.add 0 (map ScorelineTally.occurrences rows)
        = Z.of_nat (List.length (matches scoreline_store)).
Proof.
  assert (H1 : 0 < 3) by lia.
  assert (H2 : 3 <= int64_max) by (unfold int64_max; lia).
  assert (H3 : Z.of_nat (List.length (matches scoreline_store)) <= 3)
    by (unfold scoreline_store; simpl; lia).
  split; [exact H1 | split; [exact H2 | split; [exact H3 |]]].
  exact (scorelines_total_occurrences scoreline_store 3 H1 H2 H3).
Defined.

Lemma q4_rows_in (round_2 : Q -> Q) (st : Store) (r : LeagueStats.t) :
  In r (query_4_avg_goals_per_league round_2 st) ->
  exists g, In g (group_by Match.league_name String.eqb (matches st)) /\ r = q4_group round_2 g.
Proof.
  unfold query_4_avg_goals_per_league; intros Hin.
  apply in_sort_by, in_map_iff in Hin as (g & <- & Hg).
  exists g; split; [exact Hg | reflexivity].
Qed.

Lemma q4_league_names (round_2 : Q -> Q) (gs : list (string * Match.t * list Match.t)) :
  map LeagueStats.league_name (map (q4_group round_2) gs) = map (fun g => fst (fst g)) gs.
Proof.
  rewrite map_map; apply map_ext; intros [[k m0] rest]; reflexivity.
Qed.

Lemma q4_total_matches_sum (round_2 : Q -> Q) (gs : list (string * Match.t * list Match.t)) :
  fold_right Z.add 0 (map LeagueStats.total_matches (map (q4_group round_2) gs))
  = Z.of_nat (List.length (flat_map (fun g => snd (fst g) :: snd g) gs)).
Proof.
  induction gs as [| [[k m0] rest] gs IH];
    cbn [map fold_right flat_map q4_group LeagueStats.total_matches fst snd];
    [reflexivity |].
  rewrite IH, length_app; cbn [List.length]; lia.
Qed.

(** X6. Each league row counts the matches of its league, and its
    [total_goals] adds [home + away] over them: [$add] with a null goal
    count is null, and [$sum] skips it. *)
Theorem leagues_row_totals (round_2 : Q -> Q) (st : Store) (r : LeagueStats.t) :
  In r (query_4_avg_goals_per_league round_2 st) ->
  LeagueStats.total_matches r
  = Z.of_nat (List.length (filter (fun m => String.eqb (LeagueStats.league_name r)
                                                       (Match.league_name m))
                            (matches st)))
  /\ LeagueStats.total_goals r
     = fold_right (fun m acc => sum_value (bson_add (Match.home_team_goal m)
                                                    (Match.away_team_goal m)) + acc) 0
         (filter (fun m => String.eqb (LeagueStats.league_name r) (Match.league_name m))
            (matches st)).
Proof.
  intros Hin; destruct (q4_rows_in round_2 st r Hin) as (g & Hg & ->).
  destruct (group_by_inv Match.league_name String.eqb String.eqb_eq (matches st))
    as (Hm & _ & _).
  pose proof (Hm g Hg) as E.
  destruct g as [[k m0] rest]; simpl in E.
  cbn [q4_group LeagueStats.total_matches LeagueStats.total_goals LeagueStats.league_name].
  rewrite <- E; split; reflexivity.
Qed.

Lemma leagues_row_totals_witness :
  In (hd default_league_stats (query_4_avg_goals_per_league (round_half_even 2) league_store))
     (query_4_avg_goals_per_league (round_half_even 2) league_store)
  /\ LeagueStats.total_matches (hd default_league_stats (query_4_avg_goals_per_league (round_half_even 2) league_store))
     = Z.of_nat (List.length
         (filter (fun m => String.eqb
                             (LeagueStats.league_name
                                (hd default_league_stats (query_4_avg_goals_per_league (round_half_even 2) league_store)))
                             (Match.league_name m))
            (matches league_store)))
  /\ LeagueStats.total_goals (hd default_league_stats (query_4_avg_goals_per_league (round_half_even 2) league_store))
     = fold_right (fun m acc => sum_value (bson_add (Match.home_team_goal m)
                                                    (Match.away_team_goal m)) + acc) 0
         (filter (fun m => String.eqb
                             (LeagueStats.league_name
                                (hd default_league_stats (query_4_avg_goals_per_league (round_half_even 2) league_store)))
                             (Match.league_name m))
            (matches league_store)).
Proof.
  assert (Hin : In (hd default_league_stats (query_4_avg_goals_per_league (round_half_even 2) league_store))
                   (query_4_avg_goals_per_league (round_half_even 2) league_store))
    by (vm_compute; left; reflexivity).
  split; [exact Hin | exact (leagues_row_totals (round_half_even 2) league_store _ Hin)].
Defined.

(** X7. The league rows have distinct league names, and a name appears
    exactly when some match is of that league. *)
Theorem leagues_one_row_per_league (round_2 : Q -> Q) (st : Store) :
  NoDup (map LeagueStats.league_name (query_4_avg_goals_per_league round_2 st))
  /\ forall l, In l (map LeagueStats.league_name (query_4_avg_goals_per_league round_2 st))
               <-> exists m, In m (matches st) /\ Match.league_name m = l.
Proof.
  destruct (group_by_inv Match.league_name String.eqb String.eqb_eq (matches st))
    as (Hm & Hnd & Hc).
  assert (HP : Permutation (map LeagueStats.league_name (query_4_avg_goals_per_league round_2 st))
                 (map (fun g => fst (fst g))
                    (group_by Match.league_name String.eqb (matches st)))).
  { unfold query_4_avg_goals_per_league; rewrite <- (q4_league_names round_2).
    apply Permutation_map, sort_by_perm. }
  split; [exact (Permutation_NoDup (Permutation_sym HP) Hnd) |].
  intros l; split.
  - intros Hl; apply (Permutation_in _ HP), in_map_iff in Hl as (g & <- & Hg).
    pose proof (Hm g Hg) as E.
    assert (Hin : In (snd (fst g)) (snd (fst g) :: snd g)) by (left; reflexivity).
    rewrite E in Hin; apply filter_In in Hin as [Hin Heq].
    apply String.eqb_eq in Heq; exists (snd (fst g)); split; [exact Hin | symmetry; exact Heq].
  - intros (m & Hin & <-); apply (Permutation_in _ (Permutation_sym HP)), Hc, Hin.
Qed.

(** X8. The [total_matches] of the league rows add up to the number of
    matches: every match is counted in exactly one league. *)
Theorem leagues_total_matches_sum (round_2 : Q -> Q) (st : Store) :
  fold_right Z.add 0 (map LeagueStats.total_matches (query_4_avg_goals_per_league round_2 st))
  = Z.of_nat (List.length (matches st)).
Proof.
  unfold query_4_avg_goals_per_league.
  rewrite (sum_map_perm _ _ _ (sort_by_perm _ _)), q4_total_matches_sum.
  rewrite (Permutation_length (group_by_members_perm Match.league_name String.eqb (matches st))).
  reflexivity.
Qed.

(** X9. The league rows are non-increasing in [avg_goals_per_match]. *)
Theorem leagues_sorted_by_average (round_2 : Q -> Q) (st : Store) :
  Sorted (fun a b => Qle (LeagueStats.avg_goals_per_match b) (LeagueStats.avg_goals_per_match a))
    (query_4_avg_goals_per_league round_2 st).
Proof.
  apply (sorted_impl (fun a b => avg_goals_before a b = true)).
  - intros a b E; apply Qle_bool_iff, E.
  - apply sort_by_sorted; unfold avg_goals_before; intros a b E.
    apply Qle_bool_iff, Qlt_le_weak, Qnot_le_lt.
    intros H; apply Qle_bool_iff in H; congruence.
Qed.

(** ** Query 1 *)

Lemma date_desc_before_total (a b : MatchProjection.t) :
  date_desc_before a b = false -> date_desc_before b a = true.
Proof.
  unfold date_desc_before; intros E.
  apply negb_false_iff in E; apply negb_true_iff; rewrite <- bson_gt_lt.
  revert E; unfold bson_gt, bson_lt; destruct (bson_cmp _ _); congruence.
Qed.

(** X10. The high-scoring matches are the selected matches, each once
    (a permutation of them), ordered by date descending: no row is directly
    followed by one with a later date, and a null date (below every date)
    comes after every dated row. *)
Theorem high_scoring_perm_sorted (team_name : string) (min_goals : Z)
  (docs : list MatchDoc.t) :
  Permutation (query_1_high_scoring_matches team_name min_goals docs)
    (map q1_project (filter (q1_match team_name min_goals) docs))
  /\ Sorted (fun a b => bson_lt (MatchProjection.date a) (MatchProjection.date b) = false)
       (query_1_high_scoring_matches team_name min_goals docs).
Proof.
  unfold query_1_high_scoring_matches; split; [apply sort_by_perm |].
  apply (sorted_impl (fun a b => date_desc_before a b = true)).
  - intros a b E; unfold date_desc_before in E; apply negb_true_iff, E.
  - apply sort_by_sorted, date_desc_before_total.
Qed.

(** X11. Every high-scoring match has the team at home with a home goal
    count of at least [min_goals], or away with an away goal count of at
    least [min_goals]; a null goal count never qualifies. *)
Theorem high_scoring_threshold (team_name : string) (min_goals : Z)
  (docs : list MatchDoc.t) (p : MatchProjection.t) :
  In p (query_1_high_scoring_matches team_name min_goals docs) ->
  (MatchProjection.home_team_name p = team_name
   /\ exists h, MatchProjection.home_team_goal p = Some h /\ min_goals <= h)
  \/ (MatchProjection.away_team_name p = team_name
      /\ exists a, MatchProjection.away_team_goal p = Some a /\ min_goals <= a).
Proof.
  unfold query_1_high_scoring_matches; intros Hin.
  apply in_sort_by, in_map_iff in Hin as (d & <- & Hd).
  apply filter_In in Hd as [_ Hq]; unfold q1_match in Hq.
  destruct d as [dt [l s ht at0 hg ag r]]; simpl in Hq |- *.
  apply orb_true_iff in Hq as [Hq | Hq]; apply andb_true_iff in Hq as [Ht Hg];
    apply String.eqb_eq in Ht.
  - left; split; [exact Ht |].
    destruct hg as [h |]; simpl in Hg; [| discriminate].
    exists h; split; [reflexivity | apply Z.leb_le, Hg].
  - right; split; [exact Ht |].
    destruct ag as [a |]; simpl in Hg; [| discriminate].
    exists a; split; [reflexivity | apply Z.leb_le, Hg].
Qed.

Lemma high_scoring_threshold_witness :
  In (hd (MatchProjection.mk None "" "" "" "" None None None)
        (query_1_high_scoring_matches "A" 3 dated_docs))
     (query_1_high_scoring_matches "A" 3 dated_docs)
  /\ let p := hd (MatchProjection.mk None "" "" "" "" None None None)
                (query_1_high_scoring_matches "A" 3 dated_docs) in
     (MatchProjection.home_team_name p = "A"
      /\ exists h, MatchProjection.home_team_goal p = Some h /\ 3 <= h)
     \/ (MatchProjection.away_team_name p = "A"
         /\ exists a, MatchProjection.away_team_goal p = Some a /\ 3 <= a).
Proof.
  assert (Hin : In (hd (MatchProjection.mk None "" "" "" "" None None None)
                       (query_1_high_scoring_matches "A" 3 dated_docs))
                   (query_1_high_scoring_matches "A" 3 dated_docs))
    by (vm_compute; left; reflexivity).
  split; [exact Hin | exact (high_scoring_threshold "A" 3 dated_docs _ Hin)].
Defined.

(** ** The goal total of the team endpoint *)

Lemma team_total_goals_fold (t : string) (l : list Match.t) :
  (fold_left (fun acc m =>
                match acc, q2_scored t m with
                | Some s, Some g => Some (s + g)
                | _, _ => None
                end) l None = None)
  /\ forall acc,
       fold_left (fun acc m =>
                    match acc, q2_scored t m with
                    | Some s, Some g => Some (s + g)
                    | _, _ => None
                    end) l (Some acc)
       = if forallb (fun m => match q2_scored t m with Some _ => true | None => false end) l
         then Some (acc + sum_field (q2_scored t) l) else None.
Proof.
  induction l as [| m l [IHn IHs]]; simpl; [split; [reflexivity | intros acc; f_equal; lia] |].
  split; [exact IHn |].
  intros acc; destruct (q2_scored t m) as [g |]; simpl; [| exact IHn].
  rewrite IHs; destruct (forallb _ l); [f_equal; lia | reflexivity].
Qed.

(** X12. [get_team_info]'s [total_goals_scored] sums the team's own goal
    count over all its matches; one null count among them makes Python's
    [sum] raise [TypeError], modelled as [None]. *)
Theorem team_total_goals_spec (team_name : string) (ms : list Match.t) :
  team_total_goals team_name ms
  = if forallb (fun m => match q2_scored team_name m with Some _ => true | None => false end)
         (team_matches team_name ms)
    then Some (sum_field (q2_scored team_name) (team_matches team_name ms))
    else None.
Proof.
  unfold team_total_goals; rewrite (proj2 (team_total_goals_fold _ _)).
  destruct (forallb _ _); reflexivity.
Qed.

(** ** Result labels of the loader and tallies of the record query *)

Lemma determine_result_cmp (h a : Z) :
  determine_result (Some h) (Some a)
  = match Z.compare h a with Gt => home_win | Lt => away_win | Eq => draw end.
Proof.
  unfold determine_result; rewrite Z.gtb_ltb.
  destruct (Z.compare_spec h a) as [E | E | E].
  - subst; rewrite Z.ltb_irrefl; reflexivity.
  - rewrite (proj2 (Z.ltb_ge a h)), (proj2 (Z.ltb_lt h a)) by lia; reflexivity.
  - rewrite (proj2 (Z.ltb_lt a h)) by lia; reflexivity.
Qed.

(** X13. For a match the loader builds with both goal counts known and two
    different teams, the win, loss and draw tests of the record query agree
    with the loader's [result] label, read from the team's side. *)
Theorem record_tests_match_result (league season home away t : string) (h a : Z) :
  home <> away -> t = home \/ t = away ->
  let m := load_match league season home away (Some h) (Some a) in
  (q2_win t m = true <-> Match.result m = (if String.eqb home t then home_win else away_win))
  /\ (q2_loss t m = true <-> Match.result m = (if String.eqb home t then away_win else home_win))
  /\ (q2_draw m = true <-> Match.result m = draw).
Proof.
  intros Hd Ht; cbv zeta; unfold load_match, q2_win, q2_loss, q2_draw.
  cbn [Match.result Match.home_team_name Match.away_team_name
       Match.home_team_goal Match.away_team_goal].
  rewrite determine_result_cmp; unfold bson_gt, bson_lt, bson_eq, bson_cmp.
  rewrite (Z.compare_antisym h a).
  destruct Ht as [-> | ->].
  - rewrite String.eqb_refl.
    assert (E : String.eqb away home = false) by (apply String.eqb_neq; congruence).
    rewrite E; simpl.
    destruct (h ?= a); simpl; repeat split; intros HH;
      first [reflexivity | discriminate HH].
  - rewrite String.eqb_refl.
    assert (E : String.eqb home away = false) by (apply String.eqb_neq; congruence).
    rewrite E; simpl.
    destruct (h ?= a); simpl; repeat split; intros HH;
      first [reflexivity | discriminate HH].
Qed.

Lemma record_tests_match_result_witness :
  "A" <> "B" /\ ("A" = "A" \/ "A" = "B")
  /\ let m := load_match "L" "S" "A" "B" (Some 2) (Some 1) in
     (q2_win "A" m = true
      <-> Match.result m = (if String.eqb "A" "A" then home_win else away_win))
     /\ (q2_loss "A" m = true
         <-> Match.result m = (if String.eqb "A" "A" then away_win else home_win))
     /\ (q2_draw m = true <-> Match.result m = draw).
Proof.
  assert (H1 : "A" <> "B") by discriminate.
  assert (H2 : "A" = "A" \/ "A" = "B") by (left; reflexivity).
  split; [exact H1 | split; [exact H2 |]].
  exact (record_tests_match_result "L" "S" "A" "B" "A" 2 1 H1 H2).
Defined.

(** ** Query 8 *)

Lemma distinct_from_spec (seen vs : list string) :
  NoDup (distinct_from seen vs)
  /\ forall x, In x (distinct_from seen vs) -> In x vs /\ ~ In x seen.
Proof.
  revert seen; induction vs as [| v vs IH]; intros seen; simpl.
  - split; [constructor | intros x []].
  - destruct (existsb (String.eqb v) seen) eqn:E.
    + destruct (IH seen) as [Hnd Hin]; split; [exact Hnd |].
      intros x Hx; destruct (Hin x Hx) as [H1 H2]; split; [right; exact H1 | exact H2].
    + destruct (IH (v :: seen)) as [Hnd Hin].
      assert (Hv : ~ In v seen).
      { intros Hv.
        assert (existsb (String.eqb v) seen = true)
          by (apply existsb_exists; exists v; split; [exact Hv | apply String.eqb_refl]).
        congruence. }
      split.
      * constructor; [| exact Hnd].
        intros H; apply (proj2 (Hin v H)); left; reflexivity.
      * intros x [<- | Hx]; [split; [left; reflexivity | exact Hv] |].
        destruct (Hin x Hx) as [H1 H2]; split; [right; exact H1 |].
        intros H; apply H2; right; exact H.
Qed.

Lemma in_collect_records_team (s : string) (ms : list Match.t) (ts : list string)
  (r : TeamSeasonRecord.t) :
  In r (collect_records s ms ts) ->
  exists t, In t ts /\ query_2_team_season_record t s ms = Some r.
Proof.
  induction ts as [| t ts IH]; simpl; [intros [] |].
  destruct (query_2_team_season_record t s ms) eqn:E.
  - intros [<- | H]; [exists t; split; [left; reflexivity | exact E] |].
    destruct (IH H) as (t' & H1 & H2); exists t'; split; [right |]; assumption.
  - intros H; destruct (IH H) as (t' & H1 & H2); exists t'; split; [right |]; assumption.
Qed.

Lemma query_2_team (t s : string) (ms : list Match.t) (r : TeamSeasonRecord.t) :
  query_2_team_season_record t s ms = Some r -> TeamSeasonRecord.team r = t.
Proof. intros H; apply query_2_some in H; subst r; reflexivity. Qed.

Lemma enumerate_positions_teams (i : Z) (l : list TeamSeasonRecord.t) :
  map TeamSeasonRecord.team (enumerate_positions i l) = map TeamSeasonRecord.team l.
Proof.
  revert i; induction l as [| r l IH]; intros i; simpl; [reflexivity |].
  rewrite IH; reflexivity.
Qed.

Lemma collect_records_teams (s : string) (ms : list Match.t) (ts : list string) :
  map TeamSeasonRecord.team (collect_records s ms ts)
  = filter (fun t => match query_2_team_season_record t s ms with
                     | Some _ => true | None => false end) ts.
Proof.
  induction ts as [| t ts IH]; simpl; [reflexivity |].
  destruct (query_2_team_season_record t s ms) eqn:E; simpl; [| exact IH].
  rewrite IH, (query_2_team t s ms _ E); reflexivity.
Qed.

(** X14. Every standings row is the team's full season record of
    [query_2_team_season_record] (over the matches of every league) with a
    position added, for a team that played at home in that league-season. *)
Theorem standings_rows_are_season_records (ms : list Match.t) (league_name season : string)
  (r : TeamSeasonRecord.t) :
  In r (query_8_league_standings ms league_name season) ->
  (exists m, In m ms /\ Match.league_name m = league_name /\ Match.season m = season
             /\ Match.home_team_name m = TeamSeasonRecord.team r)
  /\ exists r0 i, query_2_team_season_record (TeamSeasonRecord.team r) season ms = Some r0
                  /\ r = set_position r0 i.
Proof.
  unfold query_8_league_standings, sort_desc; intros Hin.
  apply in_enumerate_positions in Hin as (r0 & i & Hin & ->).
  apply in_sort_by, in_collect_records_team in Hin as (t & Ht & Hq).
  pose proof (query_2_team _ _ _ _ Hq) as Hteam.
  cbn [set_position TeamSeasonRecord.team]; rewrite Hteam.
  split; [| exists r0, i; split; [exact Hq | reflexivity]].
  unfold distinct_home_team_name in Ht; apply in_sort_by in Ht.
  apply (proj2 (distinct_from_spec [] _)) in Ht as [Ht _].
  apply in_map_iff in Ht as (m & Hm & Hin); apply filter_In in Hin as [Hin Hf].
  apply andb_true_iff in Hf as [H1 H2]; apply String.eqb_eq in H1, H2.
  exists m; repeat split; assumption.
Qed.

Lemma standings_rows_are_season_records_witness :
  In (hd (TeamSeasonRecord.mk "" "" 0 0 0 0 0 0 0 0 None)
        (query_8_league_standings away_only_matches "L" "S"))
     (query_8_league_standings away_only_matches "L" "S")
  /\ let r := hd (TeamSeasonRecord.mk "" "" 0 0 0 0 0 0 0 0 None)
                (query_8_league_standings away_only_matches "L" "S") in
     (exists m, In m away_only_matches /\ Match.league_name m = "L" /\ Match.season m = "S"
                /\ Match.home_team_name m = TeamSeasonRecord.team r)
     /\ exists r0 i, query_2_team_season_record (TeamSeasonRecord.team r) "S" away_only_matches
                     = Some r0 /\ r = set_position r0 i.
Proof.
  assert (Hin : In (hd (TeamSeasonRecord.mk "" "" 0 0 0 0 0 0 0 0 None)
                       (query_8_league_standings away_only_matches "L" "S"))
                   (query_8_league_standings away_only_matches "L" "S"))
    by (vm_compute; left; reflexivity).
  split; [exact Hin | exact (standings_rows_are_season_records away_only_matches "L" "S" _ Hin)].
Defined.

(** X15. No team appears twice in the standings. *)
Theorem standings_teams_distinct (ms : list Match.t) (league_name season : string) :
  NoDup (map TeamSeasonRecord.team (query_8_league_standings ms league_name season)).
Proof.
  unfold query_8_league_standings, sort_desc.
  rewrite enumerate_positions_teams.
  eapply Permutation_NoDup; [symmetry; apply Permutation_map, sort_by_perm |].
  rewrite collect_records_teams; apply NoDup_filter.
  unfold distinct_home_team_name.
  exact (Permutation_NoDup (Permutation_sym (sort_by_perm _ _)) (proj1 (distinct_from_spec [] _))).
Qed.

(** ** Query 5 *)

Lemma date_before_total (a b : PlayerRatingPoint.t) :
  date_before a b = false -> date_before b a = true.
Proof.
  unfold date_before; intros E.
  apply negb_false_iff in E; apply negb_true_iff; rewrite bson_gt_lt.
  revert E; unfold bson_gt, bson_lt; destruct (bson_cmp _ _); congruence.
Qed.

(** X16. The rating series is in ascending date order (no row directly
    followed by an earlier date; a null date, below every date, comes
    first), and every row carries the queried player name. *)
Theorem rating_series_sorted_named (st : Store) (name : string) :
  Sorted (fun a b => bson_gt (PlayerRatingPoint.date a) (PlayerRatingPoint.date b) = false)
    (query_5_player_attributes_over_time st name)
  /\ forall p, In p (query_5_player_attributes_over_time st name) ->
       PlayerRatingPoint.player_name p = name.
Proof.
  unfold query_5_player_attributes_over_time; split.
  - apply (sorted_impl (fun a b => date_before a b = true)).
    + intros a b E; unfold date_before in E; apply negb_true_iff, E.
    + apply sort_by_sorted, date_before_total.
  - intros p Hin; apply in_sort_by, in_map_iff in Hin as ([p0 a] & <- & Hin).
    apply lookup_unwind_in in Hin as (Hp & _ & _).
    apply filter_In in Hp as [_ Hp]; apply String.eqb_eq in Hp; exact Hp.
Qed.

(** ** Query 3 *)

Lemma bson_avg_none (vs : list (option Z)) :
  bson_avg vs = None
  <-> flat_map (fun v => match v with Some z => [z] | None => [] end) vs = [].
Proof.
  unfold bson_avg; destruct (flat_map _ vs); split; intros H;
    first [reflexivity | discriminate].
Qed.

Lemma bson_max_none (vs : list (option Z)) :
  bson_max vs = None
  <-> flat_map (fun v => match v with Some z => [z] | None => [] end) vs = [].
Proof.
  unfold bson_max; induction vs as [| v vs IH]; simpl; [split; intros; reflexivity |].
  destruct v as [x |]; simpl; [| exact IH].
  destruct (fold_right _ None vs); split; intros H; discriminate.
Qed.

(** X17. In the top-player ranking a player's average rating is null
    exactly when the maximum rating is null: both ignore null ratings, and
    both are null only when all of the player's snapshot ratings are. *)
Theorem top_players_null_avg_iff_null_max (st : Store) (league_name : option string)
  (limit : Z) (rows : list TopPlayerEntry.t) (e : TopPlayerEntry.t) :
  query_3_top_players_by_rating st league_name limit = inr rows -> In e rows ->
  (TopPlayerEntry.avg_rating e = None <-> TopPlayerEntry.max_rating e = None).
Proof.
  unfold query_3_top_players_by_rating; cbv zeta.
  destruct (limit_stage limit _) as [err | top] eqn:E; intros H Hin; [discriminate |].
  injection H as <-; apply limit_stage_inr in E as [_ ->].
  apply in_map_iff in Hin as (g & <- & Hg).
  apply in_firstn_in, in_sort_by, in_map_iff in Hg as ([[k [p0 a0]] rest] & <- & _).
  cbn [q3_project q3_group TopPlayerEntry.avg_rating TopPlayerEntry.max_rating
       TopPlayerGroup.avg_rating TopPlayerGroup.max_rating].
  rewrite bson_max_none, <- bson_avg_none.
  destruct (bson_avg _); simpl; split; intros H; first [reflexivity | discriminate].
Qed.

Lemma top_players_null_avg_iff_null_max_witness :
  let rows := match query_3_top_players_by_rating rated_store None 10 with
              | inr rows => rows | inl _ => [] end in
  let e := nth 1 rows (TopPlayerEntry.mk "" None None None None None) in
  query_3_top_players_by_rating rated_store None 10 = inr rows /\ In e rows
  /\ (TopPlayerEntry.avg_rating e = None <-> TopPlayerEntry.max_rating e = None).
Proof.
  intros rows e.
  assert (H : query_3_top_players_by_rating rated_store None 10 = inr rows)
    by (vm_compute; reflexivity).
  assert (Hin : In e rows) by (vm_compute; right; left; reflexivity).
  split; [exact H | split; [exact Hin |]].
  exact (top_players_null_avg_iff_null_max rated_store None 10 rows e H Hin).
Defined.

(** ** Empty results of the record and head-to-head queries *)

(** X19. The season record is [None] exactly when no match of that season
    has the team on either side. *)
Theorem record_none_iff_no_match (team_name season : string) (ms : list Match.t) :
  query_2_team_season_record team_name season ms = None
  <-> forall m, In m ms -> Match.season m = season ->
        Match.home_team_name m <> team_name /\ Match.away_team_name m <> team_name.
Proof.
  unfold query_2_team_season_record.
  destruct (filter (q2_match team_name season) ms) as [| m0 l] eqn:E; split.
  - intros _ m Hin Hs.
    destruct (q2_match team_name season m) eqn:Hq.
    + assert (Hf : In m (filter (q2_match team_name season) ms))
        by (apply filter_In; split; assumption).
      rewrite E in Hf; destruct Hf.
    + unfold q2_match in Hq; rewrite (proj2 (String.eqb_eq _ _) Hs) in Hq; simpl in Hq.
      apply orb_false_iff in Hq as [H1 H2].
      split; apply String.eqb_neq; assumption.
  - reflexivity.
  - discriminate.
  - intros H.
    assert (Hf : In m0 (filter (q2_match team_name season) ms)) by (rewrite E; left; reflexivity).
    apply filter_In in Hf as [Hin Hq]; unfold q2_match in Hq.
    apply andb_true_iff in Hq as [Hs Ht]; apply String.eqb_eq in Hs.
    destruct (H m0 Hin Hs) as [H1 H2].
    apply orb_true_iff in Ht as [Ht | Ht]; apply String.eqb_eq in Ht; contradiction.
Qed.

(** X20. The head-to-head record is [None] exactly when no match has the
    two teams on its two sides, in either order. *)
Theorem head_to_head_none_iff_no_match (team1 team2 : string) (ms : list Match.t) :
  query_9_head_to_head team1 team2 ms = None
  <-> forall m, In m ms ->
        ~ (Match.home_team_name m = team1 /\ Match.away_team_name m = team2)
        /\ ~ (Match.home_team_name m = team2 /\ Match.away_team_name m = team1).
Proof.
  unfold query_9_head_to_head.
  destruct (filter (q9_match team1 team2) ms) as [| m0 l] eqn:E; split.
  - intros _ m Hin.
    destruct (q9_match team1 team2 m) eqn:Hq.
    + assert (Hf : In m (filter (q9_match team1 team2) ms))
        by (apply filter_In; split; assumption).
      rewrite E in Hf; destruct Hf.
    + unfold q9_match in Hq; apply orb_false_iff in Hq as [H1 H2].
      split; intros [Ha Hb]; apply String.eqb_eq in Ha, Hb;
        [rewrite Ha, Hb in H1 | rewrite Ha, Hb in H2]; discriminate.
  - reflexivity.
  - discriminate.
  - intros H.
    assert (Hf : In m0 (filter (q9_match team1 team2) ms)) by (rewrite E; left; reflexivity).
    apply filter_In in Hf as [Hin Hq]; unfold q9_match in Hq.
    destruct (H m0 Hin) as [H1 H2].
    apply orb_true_iff in Hq as [Hq | Hq]; apply andb_true_iff in Hq as [Ha Hb];
      apply String.eqb_eq in Ha, Hb; exfalso; [apply H1 | apply H2]; split; assumption.
Qed.

(** ** Query 7 *)

Lemma string_compare_le_trans (a b c : string) :
  String.compare a b <> Gt -> String.compare b c <> Gt -> String.compare a c <> Gt.
Proof.
  revert b c; induction a as [| ca a IH]; intros [| cb b] [| cc c] H1 H2;
    simpl in *; try congruence.
  unfold Ascii.compare in *.
  destruct (N.compare_spec (N_of_ascii ca) (N_of_ascii cb));
    destruct (N.compare_spec (N_of_ascii cb) (N_of_ascii cc));
    destruct (N.compare_spec (N_of_ascii ca) (N_of_ascii cc));
    try lia; try congruence.
  apply (IH b c); assumption.
Qed.

Lemma str_le_iff (a b : string) : str_le a b = true <-> String.compare a b <> Gt.
Proof. unfold str_le; destruct (String.compare a b); split; intros; congruence. Qed.

Lemma str_le_total (a b : string) : str_le a b = false -> str_le b a = true.
Proof.
  unfold str_le; rewrite (String.compare_antisym b a).
  destruct (String.compare a b); simpl; intros H; congruence.
Qed.

Lemma strongly_sorted_strict (l : list string) :
  StronglySorted (fun a b => str_le a b = true) l -> NoDup l ->
  StronglySorted (fun a b => String.compare a b = Lt) l.
Proof.
  induction 1 as [| a l Hs IH Hall]; intros Hnd; constructor.
  - inversion Hnd; subst; apply IH; assumption.
  - inversion Hnd as [| ? ? Hna Hnd']; subst.
    rewrite Forall_forall in Hall |- *; intros b Hb.
    specialize (Hall b Hb); unfold str_le in Hall.
    destruct (String.compare a b) eqn:E; try discriminate; [| reflexivity].
    apply String.compare_eq_iff in E; subst; contradiction.
Qed.

Lemma sorted_set_spec (xs : list string) :
  StronglySorted (fun a b => String.compare a b = Lt) (sorted_set xs)
  /\ forall s, In s (sorted_set xs) -> In s xs.
Proof.
  unfold sorted_set; destruct (distinct_from_spec [] xs) as [Hnd Hin].
  split.
  - apply strongly_sorted_strict.
    + apply Sorted_StronglySorted.
      * intros a b c H1 H2; apply str_le_iff; apply str_le_iff in H1, H2.
        exact (string_compare_le_trans a b c H1 H2).
      * apply sort_by_sorted, str_le_total.
    + exact (Permutation_NoDup (Permutation_sym (sort_by_perm _ _)) Hnd).
  - intros s Hs; apply in_sort_by in Hs; exact (proj1 (Hin s Hs)).
Qed.

Lemma q7_season_point_season (rnd : Q -> Q) (docs : list MatchDoc.t)
  (attrs : list PlayerAttributes.t) (s : string) (p : TrendPoint.t) :
  q7_season_point rnd docs attrs s = Some (Some p) -> TrendPoint.season p = s.
Proof.
  unfold q7_season_point; cbv zeta.
  destruct (sort_by _ _) as [| first rest]; [discriminate |].
  destruct (filter _ attrs) as [| a0 more]; [discriminate |].
  destruct (bson_avg _) as [r |]; [| discriminate].
  destruct (bson_avg _) as [q |]; [| discriminate].
  intros H; injection H as <-; reflexivity.
Qed.

Lemma q7_collect_sorted (rnd : Q -> Q) (docs : list MatchDoc.t)
  (attrs : list PlayerAttributes.t) (ss : list string) (ps : list TrendPoint.t) :
  StronglySorted (fun a b => String.compare a b = Lt) ss ->
  q7_collect rnd docs attrs ss = Some ps ->
  StronglySorted (fun a b => String.compare (TrendPoint.season a) (TrendPoint.season b) = Lt) ps
  /\ forall p, In p ps -> In (TrendPoint.season p) ss.
Proof.
  revert ps; induction ss as [| s ss IH]; intros ps Hs H; cbn [q7_collect] in H.
  - injection H as <-; split; [constructor | intros p []].
  - inversion Hs as [| ? ? Hs' Hall]; subst.
    destruct (q7_season_point rnd docs attrs s) as [[p |] |] eqn:E; [| | discriminate].
    + destruct (q7_collect rnd docs attrs ss) as [ps' |] eqn:E'; [| discriminate].
      injection H as <-.
      destruct (IH ps' Hs' eq_refl) as [Hss Hin].
      pose proof (q7_season_point_season _ _ _ _ _ E) as Hp.
      split.
      * constructor; [exact Hss |].
        apply Forall_forall; intros q Hq; rewrite Hp.
        rewrite Forall_forall in Hall; apply Hall, Hin, Hq.
      * intros q [<- | Hq]; [left; symmetry; exact Hp | right; apply Hin, Hq].
    + destruct (IH ps Hs' H) as [Hss Hin]; split; [exact Hss |].
      intros q Hq; right; apply Hin, Hq.
Qed.

(** X22. The trend lists each season at most once, in strictly ascending
    order, and only seasons in which the team played a match. *)
Theorem trend_seasons_ascending (rnd : Q -> Q) (team_name : string)
  (docs : list MatchDoc.t) (attrs : list PlayerAttributes.t) (ps : list TrendPoint.t) :
  query_7_team_rating_trend rnd team_name docs attrs = Some ps ->
  StronglySorted (fun a b => String.compare (TrendPoint.season a) (TrendPoint.season b) = Lt) ps
  /\ forall p, In p ps -> exists d, In d docs
       /\ (Match.home_team_name (MatchDoc.fields d) = team_name
           \/ Match.away_team_name (MatchDoc.fields d) = team_name)
       /\ Match.season (MatchDoc.fields d) = TrendPoint.season p.
Proof.
  unfold query_7_team_rating_trend; cbv zeta; intros H.
  destruct (sorted_set_spec
              (map (fun d => Match.season (MatchDoc.fields d))
                 (filter (fun d => String.eqb (Match.home_team_name (MatchDoc.fields d)) team_name
                                   || String.eqb (Match.away_team_name (MatchDoc.fields d)) team_name)
                    docs))) as [Hs Hin].
  destruct (q7_collect_sorted _ _ _ _ _ Hs H) as [Hps Hp].
  split; [exact Hps |].
  intros p Hpin; apply Hp, Hin, in_map_iff in Hpin as (d & Hd & Hdin).
  apply filter_In in Hdin as [Hdin Hteam].
  exists d; split; [exact Hdin | split; [| exact Hd]].
  apply orb_true_iff in Hteam as [Ht | Ht]; apply String.eqb_eq in Ht; [left | right]; exact Ht.
Qed.

Lemma trend_seasons_ascending_witness :
  query_7_team_rating_trend round_1 "A" trend_docs trend_snapshots
    = Some (match query_7_team_rating_trend round_1 "A" trend_docs trend_snapshots with
            | Some ps => ps | None => [] end)
  /\ StronglySorted (fun a b => String.compare (TrendPoint.season a) (TrendPoint.season b) = Lt)
       (match query_7_team_rating_trend round_1 "A" trend_docs trend_snapshots with
        | Some ps => ps | None => [] end)
  /\ forall p, In p (match query_7_team_rating_trend round_1 "A" trend_docs trend_snapshots with
                     | Some ps => ps | None => [] end) ->
       exists d, In d trend_docs
       /\ (Match.home_team_name (MatchDoc.fields d) = "A"
           \/ Match.away_team_name (MatchDoc.fields d) = "A")
       /\ Match.season (MatchDoc.fields d) = TrendPoint.season p.
Proof.
  assert (H : query_7_team_rating_trend round_1 "A" trend_docs trend_snapshots
              = Some (match query_7_team_rating_trend round_1 "A" trend_docs trend_snapshots with
                      | Some ps => ps | None => [] end)) by (vm_compute; reflexivity).
  split; [exact H | exact (trend_seasons_ascending round_1 "A" trend_docs trend_snapshots _ H)].
Defined.

Lemma bson_avg_some_head (v : Z) (vs : list (option Z)) : bson_avg (Some v :: vs) <> None.
Proof. unfold bson_avg; simpl; discriminate. Qed.

Lemma q7_season_point_rated (rnd : Q -> Q) (docs : list MatchDoc.t)
  (attrs : list PlayerAttributes.t) (s : string) :
  (forall a, In a attrs ->
     PlayerAttributes.overall_rating a <> None /\ PlayerAttributes.potential a <> None) ->
  q7_season_point rnd docs attrs s <> None.
Proof.
  intros Hr; unfold q7_season_point; cbv zeta.
  destruct (sort_by _ _) as [| first rest]; [discriminate |].
  destruct (filter _ attrs) as [| a0 more] eqn:E; [discriminate |].
  assert (Ha0 : In a0 attrs).
  { assert (H : In a0 (a0 :: more)) by (left; reflexivity).
    rewrite <- E in H; apply filter_In in H; apply H. }
  destruct (Hr a0 Ha0) as [H1 H2].
  cbn [map].
  destruct (PlayerAttributes.overall_rating a0) as [o |]; [| exfalso; exact (H1 eq_refl)].
  destruct (PlayerAttributes.potential a0) as [q |]; [| exfalso; exact (H2 eq_refl)].
  destruct (bson_avg (Some o :: _)) eqn:Eo; [| exfalso; exact (bson_avg_some_head o _ Eo)].
  destruct (bson_avg (Some q :: _)) eqn:Eq; [| exfalso; exact (bson_avg_some_head q _ Eq)].
  discriminate.
Qed.

(** X23. When no snapshot has a null overall rating or a null potential,
    the trend never raises: [round] is only ever given a number. *)
Theorem trend_defined_without_null_ratings (rnd : Q -> Q) (team_name : string)
  (docs : list MatchDoc.t) (attrs : list PlayerAttributes.t) :
  (forall a, In a attrs ->
     PlayerAttributes.overall_rating a <> None /\ PlayerAttributes.potential a <> None) ->
  exists ps, query_7_team_rating_trend rnd team_name docs attrs = Some ps.
Proof.
  intros Hr; unfold query_7_team_rating_trend; cbv zeta.
  induction (sorted_set _) as [| s ss IH]; cbn [q7_collect]; [eexists; reflexivity |].
  destruct IH as [ps Hps].
  destruct (q7_season_point rnd docs attrs s) as [[p |] |] eqn:E.
  - rewrite Hps; eexists; reflexivity.
  - exists ps; exact Hps.
  - exfalso; exact (q7_season_point_rated rnd docs attrs s Hr E).
Qed.

Lemma trend_defined_without_null_ratings_witness :
  (forall a, In a trend_snapshots ->
     PlayerAttributes.overall_rating a <> None /\ PlayerAttributes.potential a <> None)
  /\ exists ps, query_7_team_rating_trend round_1 "A" trend_docs trend_snapshots = Some ps.
Proof.
  assert (H : forall a, In a trend_snapshots ->
                PlayerAttributes.overall_rating a <> None
                /\ PlayerAttributes.potential a <> None)
    by (intros a Ha; simpl in Ha;
        destruct Ha as [<- | [<- | [<- | []]]]; split; simpl; discriminate).
  split; [exact H | exact (trend_defined_without_null_ratings round_1 "A" trend_docs _ H)].
Defined.

Lemma q7_collect_none_iff (rnd : Q -> Q) (docs : list MatchDoc.t)
  (attrs : list PlayerAttributes.t) (ss : list string) :
  q7_collect rnd docs attrs ss = None
  <-> exists s, In s ss /\ q7_season_point rnd docs attrs s = None.
Proof.
  induction ss as [| s ss IH]; cbn [q7_collect].
  - split; [discriminate | intros (s & [] & _)].
  - destruct (q7_season_point rnd docs attrs s) as [[p |] |] eqn:E.
    + destruct (q7_collect rnd docs attrs ss) eqn:E2; split.
      * discriminate.
      * intros (s' & [<- | Hs'] & Hn); [congruence |].
        discriminate (proj2 IH (ex_intro _ s' (conj Hs' Hn))).
      * intros _; destruct (proj1 IH eq_refl) as (s' & Hs' & Hn).
        exists s'; split; [right |]; assumption.
      * reflexivity.
    + rewrite IH; split.
      * intros (s' & Hs' & Hn); exists s'; split; [right |]; assumption.
      * intros (s' & [<- | Hs'] & Hn); [congruence |].
        exists s'; split; assumption.
    + split; [intros _; exists s; split; [left; reflexivity | exact E] | reflexivity].
Qed.

Lemma distinct_from_complete (seen vs : list string) (x : string) :
  In x vs -> In x (distinct_from seen vs) \/ In x seen.
Proof.
  revert seen; induction vs as [| v vs IH]; intros seen Hx; [destruct Hx |]; simpl.
  destruct (existsb (String.eqb v) seen) eqn:E.
  - destruct Hx as [<- | Hx]; [| apply IH, Hx].
    right; apply existsb_exists in E as (y & Hy & Ey).
    apply String.eqb_eq in Ey; subst; exact Hy.
  - destruct Hx as [<- | Hx]; [left; left; reflexivity |].
    destruct (IH (v :: seen) Hx) as [H | [<- | H]];
      [left; right; exact H | left; left; reflexivity | right; exact H].
Qed.

(** X24. The trend raises exactly when the pass of one of the team's
    seasons raises, whatever points the other seasons give. *)
Theorem trend_fails_iff_a_season_fails (rnd : Q -> Q) (team_name : string)
  (docs : list MatchDoc.t) (attrs : list PlayerAttributes.t) :
  query_7_team_rating_trend rnd team_name docs attrs = None
  <-> exists s, In s (map (fun d => Match.season (MatchDoc.fields d))
                        (filter (fun d => String.eqb (Match.home_team_name (MatchDoc.fields d))
                                                      team_name
                                          || String.eqb (Match.away_team_name (MatchDoc.fields d))
                                                        team_name) docs))
                /\ q7_season_point rnd docs attrs s = None.
Proof.
  unfold query_7_team_rating_trend; cbv zeta.
  rewrite q7_collect_none_iff; split.
  - intros (s & Hs & Hn); exists s; split; [apply (proj2 (sorted_set_spec _)), Hs | exact Hn].
  - intros (s & Hs & Hn); exists s; split; [| exact Hn].
    unfold sorted_set; apply (Permutation_in _ (Permutation_sym (sort_by_perm _ _))).
    destruct (distinct_from_complete [] _ _ Hs) as [H | []]; exact H.
Qed.
